(** * Vibration-sense firmware: a shallow embedding of the two sketches

    The repository holds two Arduino sketches for the Nano 33 BLE that stream
    accelerometer readings over Bluetooth LE:

    - [WashSense] embeds [Arduino_BLE_wash_sense.ino]: start-up calibration,
      a connection flag, a [millis()]-based rate limiter and [BLE.poll()];
    - [Part000] embeds the second sketch (file [part_000]): no
      calibration, a blocking [while (central.connected())] loop paced by
      [delay(1000)].

    Every call into the Arduino runtime or into a library (Serial, GPIO, IMU,
    BLE, timing) is recorded as an [Event], in program order, so that a
    function of the sketch becomes a function from the answers of its
    collaborators to the list of calls it makes (and the new globals).
    The C [float] is IEEE-754 binary32, embedded with the executable
    specification of the Standard Library ([SpecFloat], precision 24,
    maximal exponent 128). *)

From Stdlib Require Import ZArith Bool String List Lia.
From Stdlib Require Import Floats.SpecFloat.
Import ListNotations.
Local Open Scope string_scope.
Local Open Scope list_scope.
Local Open Scope Z_scope.

(** ** Numbers *)

(** C [float] on the nRF52840: binary32. *)
Module F32.
Definition prec : Z := 24.
Definition emax : Z := 128.
Definition float : Type := spec_float.

Definition add : float -> float -> float := SFadd prec emax.
Definition sub : float -> float -> float := SFsub prec emax.
Definition mul : float -> float -> float := SFmul prec emax.
Definition div : float -> float -> float := SFdiv prec emax.
Definition sqrt : float -> float := SFsqrt prec emax.
Definition ltb : float -> float -> bool := SFltb.
Definition leb : float -> float -> bool := SFleb.

(** [+0.0f]. *)
Definition zero : float := S754_zero false.

(** Conversion of a C [int] to [float] (round to nearest even). *)
Definition of_int (n : Z) : float := binary_normalize prec emax n 0 false.

(** Conversion of a [double] to [float]: the value is rounded again, to
    24 bits. *)
Definition of_double (d : spec_float) : float :=
  match d with
  | S754_finite s m e => binary_round prec emax s m e
  | _ => d
  end.

(** A number: neither NaN nor an infinity. *)
Definition is_finite (x : float) : bool :=
  match x with
  | S754_zero _ | S754_finite _ _ _ => true
  | S754_infinity _ | S754_nan => false
  end.

Definition is_nan (x : float) : bool :=
  match x with
  | S754_nan => true
  | _ => false
  end.
End F32.

(** C [double]: binary64.  It appears once, in [offsetZ - 1.0], where the
  literal [1.0] promotes the [float] operand. *)
Module F64.
Definition prec : Z := 53.
Definition emax : Z := 1024.
Definition double : Type := spec_float.

Definition sub : double -> double -> double := SFsub prec emax.

(** Every binary32 value is a binary64 value: the promotion is exact. *)
Definition of_float (x : F32.float) : double := x.

(** The literal [1.0]. *)
Definition one : double := binary_normalize prec emax 1 0 false.
End F64.

(** [unsigned long] is 32 bits wide on this target: arithmetic wraps. *)
Definition ULONG_BITS : Z := 32.
Definition wrap (x : Z) : Z := x mod 2 ^ ULONG_BITS.

(** ** Collaborators and the calls made to them *)

(** One triaxial reading, as [IMU.readAcceleration(x, y, z)] delivers it. *)
Record Sample : Type := mkSample { ax : F32.float; ay : F32.float; az : F32.float }.

Inductive Level : Type := HIGH | LOW.

(** The four notify characteristics of the service. *)
Inductive Attr : Type := vibrationX | vibrationY | vibrationZ | vibrationMag.

(** What is handed to [Serial.print]: a string literal, the peer's address
    (an Arduino [String]) or a number with its count of decimals. *)
Inductive SerialArg : Type :=
| Text (s : string)
| Addr (a : string)
| Num (v : F32.float) (digits : Z).

Inductive Event : Type :=
| SerialBegin (baud : Z)
| SerialReady (b : bool)
| SerialPrint (a : SerialArg)
| SerialPrintln (a : SerialArg)
| PinMode (pin : Z)
| DigitalWrite (pin : Z) (l : Level)
| Delay (ms : Z)
| Millis (v : Z)
| ImuBegin (ok : bool)
| AccelerationAvailable (b : bool)
| ReadAcceleration (s : Sample)
| BleBegin (ok : bool)
| BleSetLocalName (n : string)
| BleSetAdvertisedService
| AddCharacteristic (c : Attr)
| BleAddService
| BleAdvertise
| BleCentral (present : bool)
| CentralConnected (b : bool)
| WriteValue (c : Attr) (v : F32.float)
| BlePoll.

Definition Trace : Type := list Event.

(** What the collaborators answer during one pass through the loop:
    [central] is the peer [BLE.central()] / [central.connected()] reports
    ([Some address] when one is attached), [now] the time in milliseconds
    since power-on at which [millis()] would be read (not wrapped), [accel]
    the sensor's answer to [IMU.accelerationAvailable()] and, when a sample
    is ready, to [IMU.readAcceleration]. *)
Record LoopInput : Type := mkInput {
  central : option string;
  now : Z;
  accel : option Sample
}.

Definition present (i : LoopInput) : bool :=
  match central i with Some _ => true | None => false end.

Definition address (i : LoopInput) : string :=
  match central i with Some a => a | None => "" end.

(** [millis()] returns an [unsigned long]. *)
Definition millis (t : Z) : Z := wrap t.

(** ** Control that may not come back *)

(** A function of the sketch either returns, or enters [showError]'s
    [while (1)] (and never returns), or is still waiting in a polling loop
    when the recorded answers run out. *)
Inductive Outcome (A : Type) : Type :=
| Returned (a : A) (tr : Trace)
| Halted (tr : Trace)
| Spinning (tr : Trace).
Arguments Returned {A} a tr.
Arguments Halted {A} tr.
Arguments Spinning {A} tr.

Definition ret {A : Type} (a : A) : Outcome A := Returned a [].

Definition emit (tr : Trace) : Outcome unit := Returned tt tr.

Definition prepend {A : Type} (tr : Trace) (o : Outcome A) : Outcome A :=
  match o with
  | Returned a tr' => Returned a (tr ++ tr')
  | Halted tr' => Halted (tr ++ tr')
  | Spinning tr' => Spinning (tr ++ tr')
  end.

Definition bind {A B : Type} (m : Outcome A) (k : A -> Outcome B) : Outcome B :=
  match m with
  | Returned a tr => prepend tr (k a)
  | Halted tr => Halted tr
  | Spinning tr => Spinning tr
  end.

Declare Scope outcome_scope.
Delimit Scope outcome_scope with outcome.
Notation "x <- m ;; k" := (bind m (fun x => k))
  (at level 61, m at next level, right associativity) : outcome_scope.
Notation "m ;; k" := (bind m (fun _ => k))
  (at level 61, right associativity) : outcome_scope.

(** ** Observations on traces *)

Definition is_poll (e : Event) : bool :=
  match e with BlePoll => true | _ => false end.

Definition is_publish (e : Event) : bool :=
  match e with WriteValue _ _ => true | _ => false end.

Definition is_sampling (e : Event) : bool :=
  match e with
  | AccelerationAvailable _ | ReadAcceleration _ => true
  | _ => false
  end.

Definition is_init (e : Event) : bool :=
  match e with ImuBegin _ | BleBegin _ => true | _ => false end.

Definition count (p : Event -> bool) (tr : Trace) : nat :=
  length (filter p tr).

(** The delays of a trace, in order. *)
Fixpoint delays (tr : Trace) : list Z :=
  match tr with
  | [] => []
  | Delay ms :: tr' => ms :: delays tr'
  | _ :: tr' => delays tr'
  end.

(** The values pushed to the characteristics, in order. *)
Fixpoint published (tr : Trace) : list (Attr * F32.float) :=
  match tr with
  | [] => []
  | WriteValue c v :: tr' => (c, v) :: published tr'
  | _ :: tr' => published tr'
  end.

(** ** The sketch [Arduino_BLE_wash_sense.ino] *)

Module WashSense.
Local Open Scope outcome_scope.

Definition SAMPLING_RATE_HZ : Z := 10.
Definition CALIBRATION_SAMPLES : Z := 50.
Definition LED_GREEN : Z := 23.
Definition LED_RED : Z := 22.
Definition LED_BLUE : Z := 24.

(** The global variables of the sketch. *)
Record Globals : Type := mkGlobals {
  offsetX : F32.float;
  offsetY : F32.float;
  offsetZ : F32.float;
  previousMillis : Z;
  connectionActive : bool
}.

(** Their initialisers. *)
Definition initial_globals : Globals :=
  {| offsetX := F32.zero; offsetY := F32.zero; offsetZ := F32.zero;
     previousMillis := 0; connectionActive := false |}.

(** [const long interval = 1000 / SAMPLING_RATE_HZ;] (C division truncates). *)
Definition interval : Z := Z.quot 1000 SAMPLING_RATE_HZ.

Definition set_offsets (x y z : F32.float) (g : Globals) : Globals :=
  {| offsetX := x; offsetY := y; offsetZ := z;
     previousMillis := previousMillis g;
     connectionActive := connectionActive g |}.

Definition set_offsetZ (z : F32.float) (g : Globals) : Globals :=
  set_offsets (offsetX g) (offsetY g) z g.

Definition set_previousMillis (t : Z) (g : Globals) : Globals :=
  {| offsetX := offsetX g; offsetY := offsetY g; offsetZ := offsetZ g;
     previousMillis := t;
     connectionActive := connectionActive g |}.

Definition set_connectionActive (b : bool) (g : Globals) : Globals :=
  {| offsetX := offsetX g; offsetY := offsetY g; offsetZ := offsetZ g;
     previousMillis := previousMillis g;
     connectionActive := b |}.

(** The offsets as a triple, to compare them with a sample. *)
Definition offsets (g : Globals) : Sample :=
  mkSample (offsetX g) (offsetY g) (offsetZ g).

(** [blinkLED]: a 10 ms pulse of the green LED (active low). *)
Definition blinkLED : Trace :=
  [DigitalWrite LED_GREEN LOW; Delay 10; DigitalWrite LED_GREEN HIGH].

(** The corrected reading: [x -= offsetX; y -= offsetY; z -= offsetZ]. *)
Definition corrected (g : Globals) (s : Sample) : Sample :=
  mkSample (F32.sub (ax s) (offsetX g))
           (F32.sub (ay s) (offsetY g))
           (F32.sub (az s) (offsetZ g)).

(** [sqrt(x*x + y*y + z*z)], all in [float]: [sqrt] is the overload of
    [<cmath>] for [float], and [+] associates to the left. *)
Definition magnitude (c : Sample) : F32.float :=
  F32.sqrt (F32.add (F32.add (F32.mul (ax c) (ax c)) (F32.mul (ay c) (ay c)))
                    (F32.mul (az c) (az c))).

(** [readAndSendSensorData]: nothing happens when no sample is ready. *)
Definition readAndSendSensorData (a : option Sample) (g : Globals) : Trace :=
  match a with
  | None => [AccelerationAvailable false]
  | Some s =>
      let c := corrected g s in
      let vibrationMagnitude := magnitude c in
      [AccelerationAvailable true; ReadAcceleration s;
       SerialPrint (Text "X: "); SerialPrint (Num (ax c) 6);
       SerialPrint (Text " Y: "); SerialPrint (Num (ay c) 6);
       SerialPrint (Text " Z: "); SerialPrint (Num (az c) 6);
       SerialPrint (Text " Mag: "); SerialPrintln (Num vibrationMagnitude 6);
       WriteValue vibrationX (ax c);
       WriteValue vibrationY (ay c);
       WriteValue vibrationZ (az c);
       WriteValue vibrationMag vibrationMagnitude]
      ++ blinkLED
  end.

(** One pass through [loop()]. *)
Definition loop (i : LoopInput) (g : Globals) : Globals * Trace :=
  let t0 := [BleCentral (present i)] in
  let '(g, t1) :=
    if present i && negb (connectionActive g)
    then (set_connectionActive true g,
          [SerialPrint (Text "Connected to: "); SerialPrintln (Addr (address i));
           DigitalWrite LED_BLUE LOW])
    else (g, []) in
  let '(g, t2) :=
    if negb (present i) && connectionActive g
    then (set_connectionActive false g,
          [SerialPrintln (Text "Disconnected from BLE device.");
           DigitalWrite LED_BLUE HIGH])
    else (g, []) in
  let '(g, t3) :=
    if connectionActive g
    then
      let currentMillis := millis (now i) in
      if interval <=? wrap (currentMillis - previousMillis g)
      then
        let g := set_previousMillis currentMillis g in
        (g, Millis currentMillis :: readAndSendSensorData (accel i) g)
      else (g, [Millis currentMillis])
    else (g, [Delay 100]) in
  (g, t0 ++ t1 ++ t2 ++ t3 ++ [BlePoll]).

(** The [while (samples < CALIBRATION_SAMPLES)] loop of
    [calibrateAccelerometer].  Each element of [script] answers one call of
    [IMU.accelerationAvailable()]; the loop is still polling when the script
    runs out. *)
Fixpoint calibration_loop (script : list (option Sample))
    (sumX sumY sumZ : F32.float) (samples : Z)
    : Outcome (F32.float * F32.float * F32.float) :=
  if samples <? CALIBRATION_SAMPLES then
    match script with
    | [] => Spinning []
    | None :: script' =>
        prepend [AccelerationAvailable false]
                (calibration_loop script' sumX sumY sumZ samples)
    | Some s :: script' =>
        let sumX := F32.add sumX (ax s) in
        let sumY := F32.add sumY (ay s) in
        let sumZ := F32.add sumZ (az s) in
        let samples := samples + 1 in
        prepend ([AccelerationAvailable true; ReadAcceleration s]
                 ++ (if Z.rem samples 10 =? 0 then blinkLED else [])
                 ++ [Delay 20])
                (calibration_loop script' sumX sumY sumZ samples)
    end
  else ret (sumX, sumY, sumZ).

(** [calibrateAccelerometer].  [offsetZ - 1.0] is computed in [double] and
    rounded back to [float] by the assignment. *)
Definition calibrateAccelerometer (script : list (option Sample)) (g : Globals)
    : Outcome Globals :=
  emit [SerialPrintln (Text "Calibrating accelerometer...");
        DigitalWrite LED_BLUE LOW] ;;
  sums <- calibration_loop script F32.zero F32.zero F32.zero 0 ;;
  let '(sumX, sumY, sumZ) := sums in
  let g := set_offsets (F32.div sumX (F32.of_int CALIBRATION_SAMPLES))
                       (F32.div sumY (F32.of_int CALIBRATION_SAMPLES))
                       (F32.div sumZ (F32.of_int CALIBRATION_SAMPLES)) g in
  let g := set_offsetZ
             (F32.of_double (F64.sub (F64.of_float (offsetZ g)) F64.one)) g in
  emit [SerialPrintln (Text "Calibration complete!");
        SerialPrint (Text "Offsets - X: "); SerialPrint (Num (offsetX g) 6);
        SerialPrint (Text " Y: "); SerialPrint (Num (offsetY g) 6);
        SerialPrint (Text " Z: "); SerialPrintln (Num (offsetZ g) 6);
        DigitalWrite LED_BLUE HIGH] ;;
  ret g.

(** [showError] switches the red LED on and enters [while (1)]: it does not
    return.  [showError_cycle] is one turn of that loop. *)
Definition showError {A : Type} : Outcome A :=
  Halted [DigitalWrite LED_RED LOW].

Definition showError_cycle : Trace :=
  [DigitalWrite LED_BLUE LOW; Delay 300; DigitalWrite LED_BLUE HIGH; Delay 300].

(** What the hardware answers during [setup()]. *)
Record BootInput : Type := mkBoot {
  imu_begin : bool;
  ble_begin : bool;
  calib_script : list (option Sample)
}.

Definition setup (b : BootInput) (g : Globals) : Outcome Globals :=
  emit [SerialBegin 115200;
        PinMode LED_GREEN; PinMode LED_RED; PinMode LED_BLUE;
        DigitalWrite LED_GREEN HIGH; DigitalWrite LED_RED HIGH;
        DigitalWrite LED_BLUE HIGH;
        ImuBegin (imu_begin b)] ;;
  (if negb (imu_begin b)
   then emit [SerialPrintln (Text "Failed to initialize IMU!")] ;; showError
   else ret tt) ;;
  emit [SerialPrintln (Text "IMU initialized.")] ;;
  g <- calibrateAccelerometer (calib_script b) g ;;
  emit [BleBegin (ble_begin b)] ;;
  (if negb (ble_begin b)
   then emit [SerialPrintln (Text "Starting BLE failed!")] ;; showError
   else ret tt) ;;
  emit [SerialPrintln (Text "BLE initialized.");
        BleSetLocalName "Nano33BLE_Vibration";
        BleSetAdvertisedService;
        AddCharacteristic vibrationX; AddCharacteristic vibrationY;
        AddCharacteristic vibrationZ; AddCharacteristic vibrationMag;
        BleAddService; BleAdvertise;
        SerialPrintln (Text "BLE Advertising...");
        WriteValue vibrationX F32.zero; WriteValue vibrationY F32.zero;
        WriteValue vibrationZ F32.zero; WriteValue vibrationMag F32.zero] ;;
  ret g.

(** *** The running device

    The Arduino core calls [setup()] once and then [loop()] for ever.  The
    device is then in one of three situations: streaming, with its globals;
    halted in [showError]; or still inside the calibration loop, the
    recorded answers of the sensor having run out (nothing more is recorded
    of such a device). *)
Inductive Mode : Type :=
| Streaming (g : Globals)
| Halt
| Stalled.

Definition power_on (b : BootInput) : Mode * Trace :=
  match setup b initial_globals with
  | Returned g tr => (Streaming g, tr)
  | Halted tr => (Halt, tr)
  | Spinning tr => (Stalled, tr)
  end.

(** One turn of whichever loop the device is in: a pass through [loop()],
    or a turn of [showError]'s [while (1)]. *)
Definition tick (m : Mode) (i : LoopInput) : Mode * Trace :=
  match m with
  | Streaming g => let '(g', tr) := loop i g in (Streaming g', tr)
  | Halt => (Halt, showError_cycle)
  | Stalled => (Stalled, [])
  end.

Fixpoint run (m : Mode) (inputs : list LoopInput) : Mode * Trace :=
  match inputs with
  | [] => (m, [])
  | i :: inputs' =>
      let '(m1, t1) := tick m i in
      let '(m2, t2) := run m1 inputs' in
      (m2, t1 ++ t2)
  end.

(** The passes through [loop()] alone, from given globals. *)
Fixpoint loops (g : Globals) (inputs : list LoopInput) : Globals * Trace :=
  match inputs with
  | [] => (g, [])
  | i :: inputs' =>
      let '(g1, t1) := loop i g in
      let '(g2, t2) := loops g1 inputs' in
      (g2, t1 ++ t2)
  end.

End WashSense.

(** ** The second sketch (file [part_000]) *)

Module Part000.
Local Open Scope outcome_scope.

Definition LED_GREEN : Z := 23.
Definition LED_RED : Z := 22.

(** [blinkLED]: a 100 ms pulse here. *)
Definition blinkLED : Trace :=
  [DigitalWrite LED_GREEN LOW; Delay 100; DigitalWrite LED_GREEN HIGH].

(** [showError]: the red LED, then [while (1);] with an empty body. *)
Definition showError {A : Type} : Outcome A :=
  Halted [DigitalWrite LED_RED LOW].

Definition showError_cycle : Trace := [].

(** What the hardware answers during [setup()]; each element of
    [serial_script] answers one test of [while (!Serial);]. *)
Record BootInput : Type := mkBoot {
  serial_script : list bool;
  imu_begin : bool;
  ble_begin : bool
}.

Fixpoint wait_serial (script : list bool) : Outcome unit :=
  match script with
  | [] => Spinning []
  | true :: _ => emit [SerialReady true]
  | false :: script' => prepend [SerialReady false] (wait_serial script')
  end.

Definition setup (b : BootInput) : Outcome unit :=
  emit [SerialBegin 115200] ;;
  wait_serial (serial_script b) ;;
  emit [PinMode LED_GREEN; PinMode LED_RED;
        DigitalWrite LED_GREEN HIGH; DigitalWrite LED_RED HIGH;
        ImuBegin (imu_begin b)] ;;
  (if negb (imu_begin b)
   then emit [SerialPrintln (Text "Failed to initialize IMU!")] ;; showError
   else ret tt) ;;
  emit [SerialPrintln (Text "IMU initialized.");
        BleBegin (ble_begin b)] ;;
  (if negb (ble_begin b)
   then emit [SerialPrintln (Text "Starting BLE failed!")] ;; showError
   else ret tt) ;;
  emit [SerialPrintln (Text "BLE initialized.");
        BleSetLocalName "Nano33BLE_Vibration";
        BleSetAdvertisedService;
        AddCharacteristic vibrationX; AddCharacteristic vibrationY;
        AddCharacteristic vibrationZ; AddCharacteristic vibrationMag;
        BleAddService; BleAdvertise;
        SerialPrintln (Text "BLE Advertising...")].

(** The reading this sketch sends: [x - 1], [y], [z] (the [int] 1 is
    converted to [float]). *)
Definition corrected (s : Sample) : Sample :=
  mkSample (F32.sub (ax s) (F32.of_int 1)) (ay s) (az s).

(** [sqrt((x-1)*(x-1) + (y*y) + (z*z))]. *)
Definition magnitude (c : Sample) : F32.float :=
  F32.sqrt (F32.add (F32.add (F32.mul (ax c) (ax c)) (F32.mul (ay c) (ay c)))
                    (F32.mul (az c) (az c))).

(** The body of [while (central.connected())]. *)
Definition while_body (a : option Sample) : Trace :=
  match a with
  | None => [AccelerationAvailable false]
  | Some s =>
      let c := corrected s in
      let vibrationMagnetude := magnitude c in
      [AccelerationAvailable true; ReadAcceleration s;
       SerialPrint (Text "X: "); SerialPrint (Num (ax c) 6);
       SerialPrint (Text " Y: "); SerialPrint (Num (ay c) 6);
       SerialPrint (Text " Z: "); SerialPrint (Num (az c) 6);
       SerialPrint (Text " Mag: "); SerialPrintln (Num vibrationMagnetude 6);
       WriteValue vibrationX (ax c);
       WriteValue vibrationY (ay c);
       WriteValue vibrationZ (az c);
       WriteValue vibrationMag vibrationMagnetude]
      ++ blinkLED
  end
  ++ [Delay 1000].

(** Where control is between two polls of the radio: about to enter
    [loop()], or at the test of [while (central.connected())]. *)
Inductive Control : Type := AtLoop | InWhile.

(** From one poll of the radio to the next.  At [AtLoop] the poll is
    [BLE.central()], at [InWhile] it is [central.connected()]; [central i]
    answers it. *)
Definition step (c : Control) (i : LoopInput) : Control * Trace :=
  match c with
  | AtLoop =>
      if present i
      then (InWhile,
            [BleCentral true;
             SerialPrint (Text "Connected to: "); SerialPrintln (Addr (address i))])
      else (AtLoop, [BleCentral false])
  | InWhile =>
      if present i
      then (InWhile, CentralConnected true :: while_body (accel i))
      else (AtLoop,
            [CentralConnected false;
             SerialPrintln (Text "Disconnected from BLE device.")])
  end.

Inductive Mode : Type :=
| Running (c : Control)
| Halt
| Stalled.

Definition power_on (b : BootInput) : Mode * Trace :=
  match setup b with
  | Returned _ tr => (Running AtLoop, tr)
  | Halted tr => (Halt, tr)
  | Spinning tr => (Stalled, tr)
  end.

Definition tick (m : Mode) (i : LoopInput) : Mode * Trace :=
  match m with
  | Running c => let '(c', tr) := step c i in (Running c', tr)
  | Halt => (Halt, showError_cycle)
  | Stalled => (Stalled, [])
  end.

Fixpoint run (m : Mode) (inputs : list LoopInput) : Mode * Trace :=
  match inputs with
  | [] => (m, [])
  | i :: inputs' =>
      let '(m1, t1) := tick m i in
      let '(m2, t2) := run m1 inputs' in
      (m2, t1 ++ t2)
  end.

End Part000.

(** ** Vocabulary of the properties *)

(** *** Calibration *)

(** The samples a script makes available, in order. *)
Fixpoint available (script : list (option Sample)) : list Sample :=
  match script with
  | [] => []
  | Some s :: script' => s :: available script'
  | None :: script' => available script'
  end.

(** The samples calibration accepts: the first [CALIBRATION_SAMPLES]. *)
Definition accepted (script : list (option Sample)) : list Sample :=
  firstn (Z.to_nat WashSense.CALIBRATION_SAMPLES) (available script).

(** The sensor delivers the samples calibration needs. *)
Definition enough_samples (b : WashSense.BootInput) : Prop :=
  (Z.to_nat WashSense.CALIBRATION_SAMPLES
   <= length (available (WashSense.calib_script b)))%nat.

(** Sum of one component over the samples, added up in [float] in the order
    of arrival, and the mean over [CALIBRATION_SAMPLES]. *)
Definition sum_of (xs : list F32.float) : F32.float :=
  fold_left F32.add xs F32.zero.

Definition mean_of (xs : list F32.float) : F32.float :=
  F32.div (sum_of xs) (F32.of_int WashSense.CALIBRATION_SAMPLES).

(** [v - 1.0], the gravity correction. *)
Definition minus_gravity (v : F32.float) : F32.float :=
  F32.of_double (F64.sub (F64.of_float v) F64.one).

Definition is_read (e : Event) : bool :=
  match e with ReadAcceleration _ => true | _ => false end.

Definition is_calibration_log (e : Event) : bool :=
  match e with
  | SerialPrintln (Text s) => String.eqb s "Calibration complete!"
  | _ => false
  end.

(** The calls made inside the calibration loop: polls and reads of the
    sensor, the progress pulse, the pause. *)
Definition is_calibration_step (e : Event) : bool :=
  match e with
  | AccelerationAvailable _ | ReadAcceleration _ | DigitalWrite _ _
  | Delay _ => true
  | _ => false
  end.

(** *** The correction step *)

(** Component-wise difference and Euclidean norm, as the specification words
    them. *)
Definition difference (raw o : Sample) : Sample :=
  mkSample (F32.sub (ax raw) (ax o)) (F32.sub (ay raw) (ay o))
           (F32.sub (az raw) (az o)).

Definition square (v : F32.float) : F32.float := F32.mul v v.

Definition euclidean_norm (c : Sample) : F32.float :=
  F32.sqrt (F32.add (F32.add (square (ax c)) (square (ay c))) (square (az c))).

(** A sample made of three numbers. *)
Definition finite_sample (s : Sample) : Prop :=
  F32.is_finite (ax s) = true /\ F32.is_finite (ay s) = true /\
  F32.is_finite (az s) = true.

Definition origin : Sample := mkSample F32.zero F32.zero F32.zero.

(** The offset the second sketch has built in: (1, 0, 0). *)
Definition part000_offset : Sample :=
  mkSample (F32.of_int 1) F32.zero F32.zero.

(** What a peer receives for one sample at rest on every axis. *)
Definition all_zero : list (Attr * F32.float) :=
  [(vibrationX, F32.zero); (vibrationY, F32.zero); (vibrationZ, F32.zero);
   (vibrationMag, F32.zero)].

(** *** Time *)

(** The delays of a trace, added up. *)
Definition total_delay (tr : Trace) : Z := fold_right Z.add 0 (delays tr).

(** No delay of the trace is longer than [d] milliseconds. *)
Definition delays_within (d : Z) (tr : Trace) : Prop :=
  Forall (fun ms => ms <= d) (delays tr).

(** Consecutive elements at least [d] apart. *)
Fixpoint spaced (d : Z) (ts : list Z) : Prop :=
  match ts with
  | [] => True
  | a :: ts' =>
      match ts' with
      | [] => True
      | b :: _ => d <= b - a /\ spaced d ts'
      end
  end.

(** The times handed to the passes never go back, starting from [t]. *)
Fixpoint monotone (t : Z) (ts : list Z) : Prop :=
  match ts with
  | [] => True
  | a :: ts' => t <= a /\ monotone a ts'
  end.

(** The times ([now]) of the passes through [WashSense.loop] that publish. *)
Fixpoint publish_times (g : WashSense.Globals) (inputs : list LoopInput)
    : list Z :=
  match inputs with
  | [] => []
  | i :: inputs' =>
      let '(g', tr) := WashSense.loop i g in
      (if existsb is_publish tr then [now i] else [])
      ++ publish_times g' inputs'
  end.

(** For the sketch paced by [delay]: the time at which each sample is sent
    (marked by the write of [vibrationX], the first of the four), counted as
    the delays executed so far from [t]. *)
Fixpoint batch_times (t : Z) (tr : Trace) : list Z :=
  match tr with
  | [] => []
  | Delay ms :: tr' => batch_times (t + ms) tr'
  | WriteValue vibrationX _ :: tr' => t :: batch_times t tr'
  | _ :: tr' => batch_times t tr'
  end.

(** *** The radio *)

(** A pass services the radio when it calls [BLE.poll()] exactly once. *)
Definition polls_once (tr : Trace) : Prop := count is_poll tr = 1%nat.

Definition is_peer_query (e : Event) : bool :=
  match e with BleCentral _ | CentralConnected _ => true | _ => false end.

(** A function that returns with the connection flag off has written no
    characteristic. *)
Definition silent_while_disconnected (o : Outcome WashSense.Globals) : Prop :=
  forall (g : WashSense.Globals) (tr : Trace),
    o = Returned g tr ->
    WashSense.connectionActive g = false ->
    count is_publish tr = 0%nat.

(** *** Connection events *)

Definition is_connected_log (e : Event) : bool :=
  match e with
  | SerialPrint (Text s) => String.eqb s "Connected to: "
  | _ => false
  end.

Definition is_peer_identity (e : Event) : bool :=
  match e with SerialPrintln (Addr _) => true | _ => false end.

Definition is_disconnected_log (e : Event) : bool :=
  match e with
  | SerialPrintln (Text s) => String.eqb s "Disconnected from BLE device."
  | _ => false
  end.

Definition is_digital_write (e : Event) : bool :=
  match e with DigitalWrite _ _ => true | _ => false end.

Definition is_write_of (pin : Z) (l : Level) (e : Event) : bool :=
  match e with
  | DigitalWrite p HIGH => (p =? pin) && match l with HIGH => true | LOW => false end
  | DigitalWrite p LOW => (p =? pin) && match l with LOW => true | HIGH => false end
  | _ => false
  end.

(** The events of [WashSense.loop] on a new connection (log, peer identity,
    blue LED on) and on a lost one (log, blue LED off), counted together. *)
Definition connected_events (tr : Trace) : nat * nat * nat :=
  (count is_connected_log tr, count is_peer_identity tr,
   count (is_write_of WashSense.LED_BLUE LOW) tr).

Definition disconnected_events (tr : Trace) : nat * nat :=
  (count is_disconnected_log tr, count (is_write_of WashSense.LED_BLUE HIGH) tr).

(** A connection is signalled when it is logged once, with the peer's
    identity, and some indicator pin is written. *)
Definition connection_signalled (tr : Trace) : Prop :=
  count is_connected_log tr = 1%nat /\
  count is_peer_identity tr = 1%nat /\
  exists e, In e tr /\ is_digital_write e = true.

(** Rising and falling edges of a sequence of peer polls, from a previous
    state. *)
Fixpoint rising (prev : bool) (polls : list bool) : nat :=
  match polls with
  | [] => O
  | p :: polls' => ((if negb prev && p then 1 else 0) + rising p polls')%nat
  end.

Fixpoint falling (prev : bool) (polls : list bool) : nat :=
  match polls with
  | [] => O
  | p :: polls' => ((if prev && negb p then 1 else 0) + falling p polls')%nat
  end.

(** [Part000] is inside its [while] exactly when a peer was last seen. *)
Definition in_while (c : Part000.Control) : bool :=
  match c with Part000.InWhile => true | Part000.AtLoop => false end.

(** *** Indicators *)

(** The level last written to a pin ([held] when the trace does not write
    it). *)
Fixpoint pin_level (pin : Z) (tr : Trace) (held : option Level) : option Level :=
  match tr with
  | [] => held
  | DigitalWrite p l :: tr' =>
      pin_level pin tr' (if p =? pin then Some l else held)
  | _ :: tr' => pin_level pin tr' held
  end.

(** Some indicator is switched on and off again in the trace. *)
Definition indicator_blinks (tr : Trace) : Prop :=
  exists pin : Z, In (DigitalWrite pin LOW) tr /\ In (DigitalWrite pin HIGH) tr.

(** The calls of normal operation: initialisation, calibration, access to
    the sensor, writes of characteristics, calls to the radio, the clock. *)
Definition is_processing (e : Event) : bool :=
  is_init e || is_calibration_log e || is_sampling e || is_publish e
  || is_poll e || is_peer_query e
  || match e with Millis _ => true | _ => false end.

(** *** Characteristics *)

Definition attr_eqb (a b : Attr) : bool :=
  match a, b with
  | vibrationX, vibrationX | vibrationY, vibrationY
  | vibrationZ, vibrationZ | vibrationMag, vibrationMag => true
  | _, _ => false
  end.

Definition writes_to (c : Attr) (e : Event) : bool :=
  match e with WriteValue c' _ => attr_eqb c' c | _ => false end.

(** The value a characteristic holds after a trace: the last one written to
    it ([held] when the trace does not write it).  This is what a peer
    reads. *)
Fixpoint attribute (c : Attr) (tr : Trace) (held : option F32.float)
    : option F32.float :=
  match tr with
  | [] => held
  | WriteValue c' v :: tr' =>
      attribute c tr' (if attr_eqb c' c then Some v else held)
  | _ :: tr' => attribute c tr' held
  end.

(** *** The calls of a successful [WashSense.setup], in three parts *)

(** Up to calibration. *)
Definition boot_calls : Trace :=
  [SerialBegin 115200;
   PinMode WashSense.LED_GREEN; PinMode WashSense.LED_RED;
   PinMode WashSense.LED_BLUE;
   DigitalWrite WashSense.LED_GREEN HIGH; DigitalWrite WashSense.LED_RED HIGH;
   DigitalWrite WashSense.LED_BLUE HIGH;
   ImuBegin true;
   SerialPrintln (Text "IMU initialized.")].

(** From the success of [BLE.begin()] to advertising. *)
Definition advertising_calls : Trace :=
  [SerialPrintln (Text "BLE initialized.");
   BleSetLocalName "Nano33BLE_Vibration";
   BleSetAdvertisedService;
   AddCharacteristic vibrationX; AddCharacteristic vibrationY;
   AddCharacteristic vibrationZ; AddCharacteristic vibrationMag;
   BleAddService; BleAdvertise;
   SerialPrintln (Text "BLE Advertising...")].

(** The initial values. *)
Definition initial_writes : Trace :=
  [WriteValue vibrationX F32.zero; WriteValue vibrationY F32.zero;
   WriteValue vibrationZ F32.zero; WriteValue vibrationMag F32.zero].

(** *** Sample inputs *)

Definition peer_address : string := "4c:11:ae:0d:5a:02".

(** No peer, a day after power-on, with a sample ready. *)
Definition peer_gone_input : LoopInput := mkInput None 86400000 (Some origin).

(** A peer, and a sample ready. *)
Definition peer_input (t : Z) : LoopInput :=
  mkInput (Some peer_address) t (Some origin).

Definition connected_globals : WashSense.Globals :=
  WashSense.set_connectionActive true WashSense.initial_globals.

(** The five polls of the radio the specification tests with: no peer twice,
    a peer twice, no peer; no sample ready. *)
Definition five_polls : list LoopInput :=
  [mkInput None 0 None; mkInput None 100 None;
   mkInput (Some peer_address) 200 None; mkInput (Some peer_address) 300 None;
   mkInput None 400 None].

Definition five_polls_pattern : list bool := [false; false; true; true; false].

(** Passes arriving every 20 ms from power-on, a peer attached and a sample
    always ready: five passes per sampling interval. *)
Definition rapid_passes : list LoopInput :=
  map peer_input
      [100; 120; 140; 160; 180; 200; 220; 240; 260; 280; 300; 320].

(** The [float] nearest to [a / b]. *)
Definition ratio (a b : Z) : F32.float := F32.div (F32.of_int a) (F32.of_int b).

(** A device at rest, slightly off: (0.02, 0.01, 0.98) g. *)
Definition resting_sample : Sample :=
  mkSample (ratio 2 100) (ratio 1 100) (ratio 98 100).

(** A sensor that has a sample ready every other poll, sixty times. *)
Definition resting_script : list (option Sample) :=
  concat (repeat [None; Some resting_sample] 60).

(** Boots on that sensor: all well, the sensor failing, the radio failing. *)
Definition resting_boot : WashSense.BootInput :=
  WashSense.mkBoot true true resting_script.

Definition imu_failure_boot : WashSense.BootInput :=
  WashSense.mkBoot false true resting_script.

Definition ble_failure_boot : WashSense.BootInput :=
  WashSense.mkBoot true false resting_script.

(** The second sketch, Serial ready at the third test, the sensor failing. *)
Definition part000_imu_failure_boot : Part000.BootInput :=
  Part000.mkBoot [false; false; true] false true.

(** The offsets of the specification's scenario, (0.02, 0.01, -0.02). *)
Definition scenario_globals : WashSense.Globals :=
  WashSense.set_offsets (ratio 2 100) (ratio 1 100) (ratio (-2) 100)
                        WashSense.initial_globals.

(** *** Further observations *)

(** The trace of a function of the sketch, however it ends. *)
Definition outcome_trace {A : Type} (o : Outcome A) : Trace :=
  match o with
  | Returned _ tr | Halted tr | Spinning tr => tr
  end.

Definition is_ready_poll (e : Event) : bool :=
  match e with AccelerationAvailable true => true | _ => false end.

Definition is_idle_poll (e : Event) : bool :=
  match e with AccelerationAvailable false => true | _ => false end.

Definition is_advertise (e : Event) : bool :=
  match e with BleAdvertise => true | _ => false end.

Definition is_ble_begin (e : Event) : bool :=
  match e with BleBegin _ => true | _ => false end.

Definition is_serial_ready (e : Event) : bool :=
  match e with SerialReady _ => true | _ => false end.

(** The polls of a calibration script that find no sample. *)
Definition idle_polls (script : list (option Sample)) : nat :=
  length (filter (fun a => match a with None => true | Some _ => false end)
                 script).

(** The four characteristics, in the order in which a sample is sent. *)
Definition batch_attrs : list Attr :=
  [vibrationX; vibrationY; vibrationZ; vibrationMag].

(** The times ([now]) of the passes through [WashSense.loop] that poll the
    sensor. *)
Fixpoint attempt_times (g : WashSense.Globals) (inputs : list LoopInput)
    : list Z :=
  match inputs with
  | [] => []
  | i :: inputs' =>
      let '(g', tr) := WashSense.loop i g in
      (if existsb is_sampling tr then [now i] else [])
      ++ attempt_times g' inputs'
  end.

(** The level an active-low indicator has when it is on or off. *)
Definition led (on : bool) : Level := if on then LOW else HIGH.

(** The last levels written to the red, green and blue pins. *)
Definition leds (tr : Trace) : option Level * option Level * option Level :=
  (pin_level WashSense.LED_RED tr None,
   pin_level WashSense.LED_GREEN tr None,
   pin_level WashSense.LED_BLUE tr None).

(** The calls of [calibrateAccelerometer] before and after its loop. *)
Definition calibration_start : Trace :=
  [SerialPrintln (Text "Calibrating accelerometer...");
   DigitalWrite WashSense.LED_BLUE LOW].

Definition calibration_report (g : WashSense.Globals) : Trace :=
  [SerialPrintln (Text "Calibration complete!");
   SerialPrint (Text "Offsets - X: ");
   SerialPrint (Num (WashSense.offsetX g) 6);
   SerialPrint (Text " Y: "); SerialPrint (Num (WashSense.offsetY g) 6);
   SerialPrint (Text " Z: "); SerialPrintln (Num (WashSense.offsetZ g) 6);
   DigitalWrite WashSense.LED_BLUE HIGH].

(** The calls of [WashSense.setup] when [IMU.begin()] fails. *)
Definition imu_failure_calls : Trace :=
  [SerialBegin 115200;
   PinMode WashSense.LED_GREEN; PinMode WashSense.LED_RED;
   PinMode WashSense.LED_BLUE;
   DigitalWrite WashSense.LED_GREEN HIGH; DigitalWrite WashSense.LED_RED HIGH;
   DigitalWrite WashSense.LED_BLUE HIGH;
   ImuBegin false;
   SerialPrintln (Text "Failed to initialize IMU!");
   DigitalWrite WashSense.LED_RED LOW].

Definition ble_failure_calls : Trace :=
  [BleBegin false; SerialPrintln (Text "Starting BLE failed!");
   DigitalWrite WashSense.LED_RED LOW].

(** The globals [calibrateAccelerometer] leaves when its loop returns the
    three sums. *)
Definition calibrated (sums : F32.float * F32.float * F32.float)
    (g : WashSense.Globals) : WashSense.Globals :=
  let '(sumX, sumY, sumZ) := sums in
  WashSense.set_offsets
    (F32.div sumX (F32.of_int WashSense.CALIBRATION_SAMPLES))
    (F32.div sumY (F32.of_int WashSense.CALIBRATION_SAMPLES))
    (minus_gravity (F32.div sumZ (F32.of_int WashSense.CALIBRATION_SAMPLES)))
    g.

(** A float that is not NaN, and a sample without NaN. *)
Definition is_number (x : F32.float) : Prop := F32.is_nan x = false.

Definition numeric_sample (s : Sample) : Prop :=
  is_number (ax s) /\ is_number (ay s) /\ is_number (az s).

(** A float that is zero, positive or +infinity. *)
Definition nonneg (x : F32.float) : bool :=
  match x with
  | S754_zero _ | S754_infinity false | S754_finite false _ _ => true
  | _ => false
  end.

(** A sample with the signs of its components flipped at will. *)
Definition cond_opp (b : bool) (x : F32.float) : F32.float :=
  if b then SFopp x else x.

Definition flipped (sx sy sz : bool) (c : Sample) : Sample :=
  mkSample (cond_opp sx (ax c)) (cond_opp sy (ay c)) (cond_opp sz (az c)).

(** What a trace of the calibration loop is known to be: calls to the
    sensor, the green LED and [delay] only, no pin but the green one
    written, the green LED left off. *)
Definition calibration_loop_trace (ltr : Trace) : Prop :=
  Forall (fun e => is_calibration_step e = true) ltr /\
  (forall pin held,
      pin <> WashSense.LED_GREEN -> pin_level pin ltr held = held) /\
  pin_level WashSense.LED_GREEN ltr (Some HIGH) = Some HIGH.

(** The trace of [WashSense.setup] with a working sensor, up to the end of
    calibration, and the device it leaves when the radio starts or not. *)
Definition calibrated_calls (ltr : Trace) (gc : WashSense.Globals) : Trace :=
  boot_calls ++ (calibration_start ++ ltr ++ calibration_report gc).

Definition after_calibration (ble : bool) (ltr : Trace)
    (gc : WashSense.Globals) : WashSense.Mode * Trace :=
  if ble
  then (WashSense.Streaming gc,
        calibrated_calls ltr gc ++ [BleBegin true]
        ++ advertising_calls ++ initial_writes)
  else (WashSense.Halt, calibrated_calls ltr gc ++ ble_failure_calls).

(** A value a peer can use: never NaN, and a magnitude not below zero. *)
Definition sound_value (p : Attr * F32.float) : Prop :=
  is_number (snd p) /\
  (fst p = vibrationMag -> F32.leb F32.zero (snd p) = true).

(** Every sample the sensor hands to the passes is made of finite numbers. *)
Definition finite_inputs (inputs : list LoopInput) : Prop :=
  Forall (fun i => forall s, accel i = Some s -> finite_sample s) inputs.

(** So is every sample calibration accepts. *)
Definition finite_script (script : list (option Sample)) : Prop :=
  Forall finite_sample (accepted script).

(** *** Further sample inputs *)

(** A peer, and no sample ready. *)
Definition dry_input (t : Z) : LoopInput :=
  mkInput (Some peer_address) t None.

Definition dry_passes : list LoopInput :=
  map dry_input [100; 120; 140; 160; 180; 200; 220; 240; 260; 280; 300; 320].

(** A peer, a sample ready at each pass. *)
Definition resting_passes : list LoopInput :=
  map (fun t => mkInput (Some peer_address) t (Some resting_sample))
      [100; 250; 400].

(** A sensor with too few samples for calibration. *)
Definition starved_boot : WashSense.BootInput :=
  WashSense.mkBoot true true [None; Some resting_sample; None].

(** The second sketch with a Serial port that never opens. *)
Definition part000_headless_boot : Part000.BootInput :=
  Part000.mkBoot [false; false; false] true true.

Definition part000_ready_boot : Part000.BootInput :=
  Part000.mkBoot [false; true] true true.

(** *** Tactics *)

(** Case analysis on everything a pass depends on: the peer, the sensor, the
    connection flag and the outcome of the interval test. *)
Ltac loop_cases i g :=
  destruct i as [[?a|] ?t [?s|]]; destruct g as [?ox ?oy ?oz ?pm [|]];
  unfold WashSense.loop, present, address;
  cbn -[wrap millis WashSense.interval Z.leb];
  try match goal with
      | |- context [WashSense.interval <=? ?x] =>
          destruct (WashSense.interval <=? x) eqn:?
      end;
  cbn -[wrap millis WashSense.interval Z.leb].

(** * Properties *)

(** ** Generalities on traces *)

Lemma count_app (p : Event -> bool) (t1 t2 : Trace) :
  count p (t1 ++ t2) = (count p t1 + count p t2)%nat.
Proof. unfold count. now rewrite filter_app, length_app. Qed.

Lemma count_cons (p : Event -> bool) (e : Event) (tr : Trace) :
  count p (e :: tr) = ((if p e then 1 else 0) + count p tr)%nat.
Proof. unfold count. simpl. now destruct (p e). Qed.

Lemma published_app (t1 t2 : Trace) :
  published (t1 ++ t2) = published t1 ++ published t2.
Proof.
  induction t1 as [|e t1 IH]; [reflexivity|].
  destruct e; simpl; now rewrite ?IH.
Qed.

Lemma count_disjoint (p q : Event -> bool) (tr : Trace) :
  (forall e, q e = true -> p e = false) ->
  Forall (fun e => q e = true) tr ->
  count p tr = 0%nat.
Proof.
  intros Hpq H. induction H as [|e tr He _ IH]; [reflexivity|].
  rewrite count_cons, IH, (Hpq e He). reflexivity.
Qed.

(** ** One pass through [WashSense.loop] *)

Section OnePass.
Import WashSense.

(** After the transition tests the flag is what the radio just reported. *)
Lemma loop_connection (i : LoopInput) (g : Globals) :
  connectionActive (fst (loop i g)) = present i.
Proof. loop_cases i g; reflexivity. Qed.

Lemma loop_ends_with_poll (i : LoopInput) (g : Globals) :
  exists tr, snd (loop i g) = tr ++ [BlePoll] /\ count is_poll tr = 0%nat.
Proof.
  loop_cases i g;
    match goal with
    | |- exists tr, ?l = tr ++ _ /\ _ => exists (removelast l)
    end; split; reflexivity.
Qed.

Lemma loop_total_delay (i : LoopInput) (g : Globals) :
  total_delay (snd (loop i g)) <= 100.
Proof. loop_cases i g; unfold total_delay; simpl; lia. Qed.

Lemma loop_delays_connected (i : LoopInput) (g : Globals) :
  present i = true ->
  delays (snd (loop i g)) = [] \/ delays (snd (loop i g)) = [10].
Proof.
  intros Hp. revert Hp.
  loop_cases i g; intros Hp; try discriminate Hp; auto.
Qed.

Lemma loop_disconnected (i : LoopInput) (g : Globals) :
  present i = false ->
  count is_publish (snd (loop i g)) = 0%nat /\
  count is_sampling (snd (loop i g)) = 0%nat /\
  delays (snd (loop i g)) = [100].
Proof.
  intros Hp. revert Hp.
  loop_cases i g; intros Hp; try discriminate Hp; repeat split.
Qed.

End OnePass.

(** ** One step of [Part000] *)

Lemma part000_step_no_poll (c : Part000.Control) (i : LoopInput) :
  count is_poll (snd (Part000.step c i)) = 0%nat.
Proof. destruct c, i as [[a|] t [s|]]; reflexivity. Qed.

Lemma part000_connected_delays (i : LoopInput) :
  present i = true ->
  delays (snd (Part000.step Part000.InWhile i)) = [1000] \/
  delays (snd (Part000.step Part000.InWhile i)) = [100; 1000].
Proof.
  destruct i as [[a|] t [s|]]; intros Hp; try discriminate Hp; simpl; auto.
Qed.

(** ** Servicing the radio (C1) *)

(** C1, as stated, fails on the second sketch: a pass of its connected loop
    never calls [BLE.poll()]. *)
Lemma part000_pass_without_poll :
  ~ polls_once (snd (Part000.step Part000.InWhile (peer_input 0))).
Proof. unfold polls_once. vm_compute. discriminate. Qed.

(** C1 (amended): in [Arduino_BLE_wash_sense.ino] every pass through [loop()]
    calls [BLE.poll()] exactly once, as its last call, whatever the peer, the
    connection flag, the clock and the sensor say, and the delays of one pass
    add up to at most 100 ms; the second sketch never calls [BLE.poll()]. *)
Theorem poll_once_per_pass :
  (forall (i : LoopInput) (g : WashSense.Globals),
      polls_once (snd (WashSense.loop i g)) /\
      (exists tr, snd (WashSense.loop i g) = tr ++ [BlePoll]) /\
      total_delay (snd (WashSense.loop i g)) <= 100) /\
  (forall (c : Part000.Control) (i : LoopInput),
      count is_poll (snd (Part000.step c i)) = 0%nat).
Proof.
  split.
  - intros i g.
    destruct (loop_ends_with_poll i g) as (tr & Heq & Hnone).
    repeat split.
    + unfold polls_once. rewrite Heq, count_app, Hnone. reflexivity.
    + now exists tr.
    + apply loop_total_delay.
  - apply part000_step_no_poll.
Qed.

(** ** Delays while connected (C7) *)

(** C7, as stated, fails on the second sketch: a connected pass that sends a
    sample executes [delay(1000)], ten sampling intervals. *)
Lemma part000_connected_pass_sleeps_a_second :
  ~ delays_within 100 (snd (Part000.step Part000.InWhile (peer_input 0))).
Proof.
  unfold delays_within. intros H.
  assert (Hin : In 1000 (delays (snd (Part000.step Part000.InWhile (peer_input 0)))))
    by (simpl; auto).
  rewrite Forall_forall in H. apply H in Hin. lia.
Qed.

(** C7 (amended): with a peer attached, a pass through [loop()] of
    [Arduino_BLE_wash_sense.ino] delays at most once, for the 10 ms indicator
    pulse, well within one sampling interval; a connected pass of the second
    sketch always executes [delay(1000)], after a 100 ms pulse when it sends a
    sample. *)
Theorem connected_pass_delays :
  (forall (i : LoopInput) (g : WashSense.Globals),
      present i = true ->
      (delays (snd (WashSense.loop i g)) = [] \/
       delays (snd (WashSense.loop i g)) = [10]) /\
      delays_within WashSense.interval (snd (WashSense.loop i g))) /\
  (forall i : LoopInput,
      present i = true ->
      delays (snd (Part000.step Part000.InWhile i)) = [1000] \/
      delays (snd (Part000.step Part000.InWhile i)) = [100; 1000]).
Proof.
  split.
  - intros i g Hp. split; [now apply loop_delays_connected|].
    unfold delays_within.
    destruct (loop_delays_connected i g Hp) as [-> | ->].
    + constructor.
    + constructor; [vm_compute; discriminate | constructor].
  - apply part000_connected_delays.
Qed.

Lemma connected_pass_delays_witness :
  present (peer_input 250) = true /\
  ((delays (snd (WashSense.loop (peer_input 250) connected_globals)) = [] \/
    delays (snd (WashSense.loop (peer_input 250) connected_globals)) = [10]) /\
   delays_within WashSense.interval
     (snd (WashSense.loop (peer_input 250) connected_globals))) /\
  (delays (snd (Part000.step Part000.InWhile (peer_input 250))) = [1000] \/
   delays (snd (Part000.step Part000.InWhile (peer_input 250))) = [100; 1000]).
Proof.
  split; [reflexivity|]. split.
  - apply (proj1 connected_pass_delays (peer_input 250) connected_globals).
    reflexivity.
  - apply (proj2 connected_pass_delays (peer_input 250)). reflexivity.
Defined.

(** ** Connection transitions (C4) *)

Section Transitions.
Import WashSense.

Lemma loops_cons (g : Globals) (i : LoopInput) (inputs : list LoopInput) :
  loops g (i :: inputs) =
  (fst (loops (fst (loop i g)) inputs),
   snd (loop i g) ++ snd (loops (fst (loop i g)) inputs)).
Proof.
  simpl. destruct (loop i g) as [g1 t1]. simpl.
  now destruct (loops g1 inputs).
Qed.

Lemma loop_connected_events (i : LoopInput) (g : Globals) :
  connected_events (snd (loop i g)) =
  if negb (connectionActive g) && present i then (1, 1, 1)%nat else (0, 0, 0)%nat.
Proof. loop_cases i g; reflexivity. Qed.

Lemma loop_disconnected_events (i : LoopInput) (g : Globals) :
  disconnected_events (snd (loop i g)) =
  if connectionActive g && negb (present i) then (1, 1)%nat else (0, 0)%nat.
Proof. loop_cases i g; reflexivity. Qed.

Lemma connected_events_app (t1 t2 : Trace) :
  connected_events (t1 ++ t2) =
  let '(a1, b1, c1) := connected_events t1 in
  let '(a2, b2, c2) := connected_events t2 in
  (a1 + a2, b1 + b2, c1 + c2)%nat.
Proof. unfold connected_events. now rewrite !count_app. Qed.

Lemma disconnected_events_app (t1 t2 : Trace) :
  disconnected_events (t1 ++ t2) =
  let '(a1, b1) := disconnected_events t1 in
  let '(a2, b2) := disconnected_events t2 in
  (a1 + a2, b1 + b2)%nat.
Proof. unfold disconnected_events. now rewrite !count_app. Qed.

(** Over any number of passes the connection events are as many as the
    rising edges of the polls, the disconnection events as many as the
    falling edges. *)
Lemma loops_connected_events (inputs : list LoopInput) :
  forall g : Globals,
    connected_events (snd (loops g inputs)) =
    let n := rising (connectionActive g) (map present inputs) in (n, n, n).
Proof.
  induction inputs as [|i inputs IH]; intros g; [reflexivity|].
  rewrite loops_cons. cbn [snd map rising].
  rewrite connected_events_app, loop_connected_events, IH, loop_connection.
  now destruct (negb (connectionActive g) && present i).
Qed.

Lemma loops_disconnected_events (inputs : list LoopInput) :
  forall g : Globals,
    disconnected_events (snd (loops g inputs)) =
    let n := falling (connectionActive g) (map present inputs) in (n, n).
Proof.
  induction inputs as [|i inputs IH]; intros g; [reflexivity|].
  rewrite loops_cons. cbn [snd map falling].
  rewrite disconnected_events_app, loop_disconnected_events, IH, loop_connection.
  now destruct (connectionActive g && negb (present i)).
Qed.

End Transitions.

Section Part000Transitions.
Import Part000.

Lemma part000_run_cons (c : Control) (i : LoopInput) (inputs : list LoopInput) :
  snd (run (Running c) (i :: inputs)) =
  snd (step c i) ++ snd (run (Running (fst (step c i))) inputs).
Proof.
  simpl. destruct (step c i) as [c1 t1]. simpl.
  now destruct (run (Running c1) inputs).
Qed.

Lemma part000_step_control (c : Control) (i : LoopInput) :
  in_while (fst (step c i)) = present i.
Proof. destruct c, i as [[a|] t s]; reflexivity. Qed.

Lemma part000_step_logs (c : Control) (i : LoopInput) :
  count is_connected_log (snd (step c i)) =
    (if negb (in_while c) && present i then 1 else 0)%nat /\
  count is_peer_identity (snd (step c i)) =
    (if negb (in_while c) && present i then 1 else 0)%nat /\
  count is_disconnected_log (snd (step c i)) =
    (if in_while c && negb (present i) then 1 else 0)%nat.
Proof. destruct c, i as [[a|] t [s|]]; repeat split. Qed.

(** The only pin this sketch writes while running is the green LED. *)
Lemma part000_step_pins (c : Control) (i : LoopInput) (pin : Z) (l : Level) :
  pin <> LED_GREEN -> count (is_write_of pin l) (snd (step c i)) = 0%nat.
Proof.
  intros Hpin. apply Z.eqb_neq in Hpin. rewrite Z.eqb_sym in Hpin.
  destruct c, i as [[a|] t [s|]], l; try reflexivity;
    unfold count; cbn -[Z.eqb]; rewrite Hpin; reflexivity.
Qed.

Lemma part000_run_logs (inputs : list LoopInput) :
  forall c : Control,
    count is_connected_log (snd (run (Running c) inputs)) =
      rising (in_while c) (map present inputs) /\
    count is_peer_identity (snd (run (Running c) inputs)) =
      rising (in_while c) (map present inputs) /\
    count is_disconnected_log (snd (run (Running c) inputs)) =
      falling (in_while c) (map present inputs).
Proof.
  induction inputs as [|i inputs IH]; intros c; [repeat split|].
  rewrite part000_run_cons, !count_app. cbn [map rising falling].
  destruct (part000_step_logs c i) as (-> & -> & ->).
  destruct (IH (fst (step c i))) as (-> & -> & ->).
  now rewrite part000_step_control.
Qed.

Lemma part000_run_pins (inputs : list LoopInput) (pin : Z) (l : Level) :
  pin <> LED_GREEN ->
  forall c : Control,
    count (is_write_of pin l) (snd (run (Running c) inputs)) = 0%nat.
Proof.
  intros Hpin. induction inputs as [|i inputs IH]; intros c; [reflexivity|].
  now rewrite part000_run_cons, count_app, part000_step_pins, IH.
Qed.

End Part000Transitions.

(** The five polls of the specification, in each sketch. *)
Example five_polls_wash_sense :
  snd (WashSense.loops WashSense.initial_globals five_polls) =
  [BleCentral false; Delay 100; BlePoll;
   BleCentral false; Delay 100; BlePoll;
   BleCentral true; SerialPrint (Text "Connected to: ");
   SerialPrintln (Addr peer_address); DigitalWrite WashSense.LED_BLUE LOW;
   Millis 200; AccelerationAvailable false; BlePoll;
   BleCentral true; Millis 300; AccelerationAvailable false; BlePoll;
   BleCentral false; SerialPrintln (Text "Disconnected from BLE device.");
   DigitalWrite WashSense.LED_BLUE HIGH; Delay 100; BlePoll].
Proof. reflexivity. Qed.

Example five_polls_part000 :
  snd (Part000.run (Part000.Running Part000.AtLoop) five_polls) =
  [BleCentral false;
   BleCentral false;
   BleCentral true; SerialPrint (Text "Connected to: ");
   SerialPrintln (Addr peer_address);
   CentralConnected true; AccelerationAvailable false; Delay 1000;
   CentralConnected false;
   SerialPrintln (Text "Disconnected from BLE device.")].
Proof. reflexivity. Qed.

(** C4, as stated, fails on the second sketch: over the five polls it logs the
    connection but sets no indicator (it writes no pin at all). *)
Lemma part000_connection_without_indicator :
  ~ connection_signalled
      (snd (Part000.run (Part000.Running Part000.AtLoop) five_polls)).
Proof.
  intros (_ & _ & e & Hin & He).
  simpl in Hin.
  repeat (destruct Hin as [<- | Hin]; [discriminate He|]).
  exact Hin.
Qed.

(** C4 (amended): transitions are edge-triggered.  In
    [Arduino_BLE_wash_sense.ino] the connection events of any run (the
    "Connected to: " log, the peer's address, the blue LED switched on) are as
    many as the rising edges of the polls, the disconnection events (log, blue
    LED off) as many as the falling edges; for polls
    [Disconnected, Disconnected, Connected, Connected, Disconnected] from
    power-on that is exactly one of each.  The second sketch logs each
    transition once on the same polls, and drives no connection indicator:
    the only pin it writes is the green one. *)
Theorem connection_events_edge_triggered :
  (forall (g : WashSense.Globals) (inputs : list LoopInput),
      connected_events (snd (WashSense.loops g inputs)) =
        (let n := rising (WashSense.connectionActive g) (map present inputs) in
         (n, n, n)) /\
      disconnected_events (snd (WashSense.loops g inputs)) =
        (let n := falling (WashSense.connectionActive g) (map present inputs) in
         (n, n))) /\
  (forall inputs : list LoopInput,
      map present inputs = five_polls_pattern ->
      connected_events (snd (WashSense.loops WashSense.initial_globals inputs))
        = (1, 1, 1)%nat /\
      disconnected_events (snd (WashSense.loops WashSense.initial_globals inputs))
        = (1, 1)%nat) /\
  (forall inputs : list LoopInput,
      map present inputs = five_polls_pattern ->
      let tr := snd (Part000.run (Part000.Running Part000.AtLoop) inputs) in
      count is_connected_log tr = 1%nat /\
      count is_peer_identity tr = 1%nat /\
      count is_disconnected_log tr = 1%nat /\
      forall (pin : Z) (l : Level),
        pin <> Part000.LED_GREEN -> count (is_write_of pin l) tr = 0%nat).
Proof.
  split; [|split].
  - intros g inputs. split.
    + apply loops_connected_events.
    + apply loops_disconnected_events.
  - intros inputs Hp.
    rewrite loops_connected_events, loops_disconnected_events, Hp.
    split; reflexivity.
  - intros inputs Hp tr. subst tr.
    destruct (part000_run_logs inputs Part000.AtLoop) as (-> & -> & ->).
    rewrite Hp. repeat split.
    intros pin l Hpin. now apply part000_run_pins.
Qed.

Lemma connection_events_edge_triggered_witness :
  map present five_polls = five_polls_pattern /\
  (connected_events (snd (WashSense.loops WashSense.initial_globals five_polls))
     = (1, 1, 1)%nat /\
   disconnected_events (snd (WashSense.loops WashSense.initial_globals five_polls))
     = (1, 1)%nat) /\
  count is_disconnected_log
    (snd (Part000.run (Part000.Running Part000.AtLoop) five_polls)) = 1%nat.
Proof.
  split; [reflexivity|]. split.
  - apply (proj1 (proj2 connection_events_edge_triggered) five_polls).
    reflexivity.
  - apply (proj2 (proj2 connection_events_edge_triggered) five_polls).
    reflexivity.
Defined.

(** ** The sampling interval (C3) *)

Lemma spaced_tail (d a : Z) (ts : list Z) : spaced d (a :: ts) -> spaced d ts.
Proof. destruct ts as [|b ts]; simpl; tauto. Qed.

Lemma spaced_cons (d a b : Z) (ts : list Z) :
  d <= b - a -> spaced d (b :: ts) -> spaced d (a :: b :: ts).
Proof. intros; split; assumption. Qed.

Lemma spaced_weaken (d d' : Z) (ts : list Z) :
  d' <= d -> spaced d ts -> spaced d' ts.
Proof.
  intros Hd. induction ts as [|a ts IH]; [trivial|].
  destruct ts as [|b ts]; [trivial|].
  intros [H1 H2]. split; [lia | now apply IH].
Qed.

Lemma monotone_weaken (t t' : Z) (ts : list Z) :
  t <= t' -> monotone t' ts -> monotone t ts.
Proof. destruct ts as [|a ts]; simpl; [trivial|]. intros H [H1 H2]. split; [lia|assumption]. Qed.

(** The wrapped difference of two readings of the clock under-estimates the
    time that went by: when it reaches the interval, so did the time. *)
Lemma wrapped_elapsed (tp t : Z) :
  tp <= t ->
  WashSense.interval <= wrap (millis t - wrap tp) ->
  WashSense.interval <= t - tp.
Proof.
  unfold millis, wrap. intros Hle H.
  rewrite <- Zminus_mod in H.
  destruct (Z_lt_le_dec (t - tp) WashSense.interval) as [Hlt|Hge]; [|exact Hge].
  rewrite Z.mod_small in H; [exact H|].
  split; [lia|]. apply Z.lt_trans with (1 := Hlt). reflexivity.
Qed.

Section RateLimiter.
Import WashSense.

(** What one pass does to the timestamp, and when it samples or publishes. *)
Lemma loop_rate_limiter (i : LoopInput) (g : Globals) :
  (previousMillis (fst (loop i g)) = previousMillis g /\
   existsb is_publish (snd (loop i g)) = false /\
   existsb is_sampling (snd (loop i g)) = false) \/
  (previousMillis (fst (loop i g)) = millis (now i) /\
   interval <= wrap (millis (now i) - previousMillis g)).
Proof.
  loop_cases i g;
    try (left; repeat split; reflexivity);
    right; split; try reflexivity; now apply Z.leb_le.
Qed.

Lemma publish_times_cons (g : Globals) (i : LoopInput) (inputs : list LoopInput) :
  publish_times g (i :: inputs) =
  (if existsb is_publish (snd (loop i g)) then [now i] else [])
  ++ publish_times (fst (loop i g)) inputs.
Proof. simpl. now destruct (loop i g). Qed.

(** The invariant: the timestamp is the wrapped time [tp] of an earlier
    reading of the clock, and nothing was published after [tp]. *)
Lemma publish_times_spaced (inputs : list LoopInput) :
  forall (g : Globals) (tp t0 : Z),
    t0 <= tp ->
    previousMillis g = wrap tp ->
    monotone tp (map now inputs) ->
    spaced interval (t0 :: publish_times g inputs).
Proof.
  induction inputs as [|i inputs IH]; intros g tp t0 H0 Hprev Hmono;
    [exact I|].
  destruct Hmono as [Hle Hmono]. fold (monotone (now i) (map now inputs)) in Hmono.
  rewrite publish_times_cons.
  destruct (loop_rate_limiter i g) as [(Hsame & Hpub & _) | (Hnew & Htest)].
  - rewrite Hpub. simpl app.
    apply (IH _ tp); [assumption | congruence |].
    now apply monotone_weaken with (t' := now i).
  - rewrite Hprev in Htest. apply wrapped_elapsed in Htest; [|assumption].
    destruct (existsb is_publish (snd (loop i g))).
    + simpl app. apply spaced_cons; [lia|].
      apply (IH _ (now i)); [lia | exact Hnew | assumption].
    + simpl app.
      apply (IH _ (now i)); [lia | exact Hnew | assumption].
Qed.

End RateLimiter.

Section Part000Pace.
Import Part000.

Lemma batch_times_app (t1 t2 : Trace) :
  forall t : Z,
    batch_times t (t1 ++ t2) =
    batch_times t t1 ++ batch_times (t + total_delay t1) t2.
Proof.
  unfold total_delay.
  induction t1 as [|e t1 IH]; intros t; simpl.
  - now rewrite Z.add_0_r.
  - destruct e; simpl; rewrite ?IH; try reflexivity.
    + f_equal. f_equal. lia.
    + destruct c; simpl; now rewrite ?IH.
Qed.

(** A step sends at most one sample, at its start, and then sleeps for
    1100 ms (100 for the pulse, 1000 for the pace). *)
Lemma part000_step_batch (c : Control) (i : LoopInput) (t : Z) :
  (batch_times t (snd (step c i)) = [] /\ 0 <= total_delay (snd (step c i))) \/
  (batch_times t (snd (step c i)) = [t] /\ total_delay (snd (step c i)) = 1100).
Proof.
  destruct c, i as [[a|] t' [s|]]; simpl;
    try (left; split; [reflexivity | vm_compute; discriminate]).
  right. split; reflexivity.
Qed.

Lemma part000_batches_spaced (inputs : list LoopInput) :
  forall (c : Control) (t t0 : Z),
    t0 + 1100 <= t ->
    spaced 1100 (t0 :: batch_times t (snd (run (Running c) inputs))).
Proof.
  induction inputs as [|i inputs IH]; intros c t t0 Ht; [exact I|].
  rewrite part000_run_cons, batch_times_app.
  destruct (part000_step_batch c i t) as [(-> & Hd) | (-> & ->)]; simpl app.
  - apply IH. lia.
  - apply spaced_cons; [lia|]. apply IH. lia.
Qed.

End Part000Pace.

(** The rate limiter at work: of twelve passes 20 ms apart, three publish. *)
Example rapid_passes_publish_times :
  publish_times WashSense.initial_globals rapid_passes = [100; 200; 300].
Proof. vm_compute. reflexivity. Qed.

(** Across the wrap of [millis()] at 2^32 ms: passes 50 ms before the wrap,
    4 ms and 60 ms after it; the first and the third publish. *)
Example wrap_around_publish_times :
  publish_times WashSense.initial_globals
    (map peer_input [2 ^ 32 - 50; 2 ^ 32 + 4; 2 ^ 32 + 60])
  = [2 ^ 32 - 50; 2 ^ 32 + 60].
Proof. vm_compute. reflexivity. Qed.

(** C3: the interval is [1000 / SAMPLING_RATE_HZ] = 100 ms.  In
    [Arduino_BLE_wash_sense.ino], whatever the passes and however fast they
    come, two consecutive publishing passes read the clock at least one
    interval apart, and a pass touches the sensor or publishes only when the
    (wrapped) time since the last-sampled timestamp has reached the interval.
    In the second sketch two consecutive samples are sent at least 1100 ms of
    delay apart, hence at least one interval apart too. *)
Theorem publishes_at_least_an_interval_apart :
  WashSense.interval = 100 /\
  (forall (g : WashSense.Globals) (inputs : list LoopInput) (t0 : Z),
      WashSense.previousMillis g = wrap t0 ->
      monotone t0 (map now inputs) ->
      spaced WashSense.interval (publish_times g inputs)) /\
  (forall (i : LoopInput) (g : WashSense.Globals),
      existsb is_sampling (snd (WashSense.loop i g)) = true \/
      existsb is_publish (snd (WashSense.loop i g)) = true ->
      WashSense.interval
      <= wrap (millis (now i) - WashSense.previousMillis g)) /\
  (forall (c : Part000.Control) (inputs : list LoopInput) (t : Z),
      spaced WashSense.interval
        (batch_times t (snd (Part000.run (Part000.Running c) inputs)))).
Proof.
  split; [reflexivity|]. split; [|split].
  - intros g inputs t0 Hprev Hmono.
    apply spaced_tail with (a := t0).
    now apply publish_times_spaced with (tp := t0); [lia | |].
  - intros i g H.
    destruct (loop_rate_limiter i g) as [(_ & Hpub & Hsam) | (_ & Htest)];
      [|exact Htest].
    rewrite Hpub, Hsam in H. destruct H; discriminate.
  - intros c inputs t.
    apply spaced_weaken with (d := 1100); [vm_compute; discriminate|].
    apply spaced_tail with (a := t - 1100).
    apply part000_batches_spaced. lia.
Qed.

Lemma publishes_at_least_an_interval_apart_witness :
  WashSense.previousMillis WashSense.initial_globals = wrap 0 /\
  monotone 0 (map now rapid_passes) /\
  spaced WashSense.interval (publish_times WashSense.initial_globals rapid_passes) /\
  WashSense.interval
  <= wrap (millis (now (peer_input 100))
           - WashSense.previousMillis connected_globals).
Proof.
  split; [reflexivity|].
  assert (Hmono : monotone 0 (map now rapid_passes)) by (simpl; lia).
  split; [exact Hmono|]. split.
  - apply (proj1 (proj2 publishes_at_least_an_interval_apart)
             WashSense.initial_globals rapid_passes 0);
      [reflexivity | exact Hmono].
  - apply (proj1 (proj2 (proj2 publishes_at_least_an_interval_apart))
             (peer_input 100) connected_globals).
    left. reflexivity.
Defined.

(** ** Calibration (C2) *)

Section Calibration.
Import WashSense.

Lemma prepend_returned {A : Type} (tr : Trace) (o : Outcome A) (a : A) (tr' : Trace) :
  o = Returned a tr' -> prepend tr o = Returned a (tr ++ tr').
Proof. now intros ->. Qed.

(** With [n] samples still to accept and at least [n] to come, the loop
    returns the sums extended by the next [n] samples, having read exactly
    [n]. *)
Lemma calibration_loop_returns (script : list (option Sample)) :
  forall (n : nat) (sumX sumY sumZ : F32.float) (samples : Z),
    samples = CALIBRATION_SAMPLES - Z.of_nat n ->
    (n <= length (available script))%nat ->
    exists tr,
      calibration_loop script sumX sumY sumZ samples =
        Returned (fold_left F32.add (map ax (firstn n (available script))) sumX,
                  fold_left F32.add (map ay (firstn n (available script))) sumY,
                  fold_left F32.add (map az (firstn n (available script))) sumZ)
                 tr /\
      count is_read tr = n /\
      Forall (fun e => is_calibration_step e = true) tr.
Proof.
  induction script as [|[s|] script IH]; intros n sumX sumY sumZ samples Hs Hn.
  - simpl in Hn. assert (n = 0%nat) by lia. subst n.
    simpl. replace (samples <? CALIBRATION_SAMPLES) with false
      by (symmetry; apply Z.ltb_ge; lia).
    exists []. repeat split. constructor.
  - destruct n as [|n].
    + simpl. replace (samples <? CALIBRATION_SAMPLES) with false
        by (symmetry; apply Z.ltb_ge; lia).
      exists []. repeat split. constructor.
    + cbn [calibration_loop].
      replace (samples <? CALIBRATION_SAMPLES) with true
        by (symmetry; apply Z.ltb_lt; lia).
      destruct (IH n (F32.add sumX (ax s)) (F32.add sumY (ay s))
                  (F32.add sumZ (az s)) (samples + 1))
        as (tr & Heq & Hread & Hall); [lia | simpl in Hn; lia |].
      eexists. split; [apply prepend_returned; exact Heq|].
      rewrite !count_app, Hread.
      destruct (Z.rem (samples + 1) 10 =? 0);
        (split; [reflexivity | repeat (constructor; [reflexivity|]); exact Hall]).
  - cbn [calibration_loop available].
    destruct (samples <? CALIBRATION_SAMPLES) eqn:Hlt.
    + destruct (IH n sumX sumY sumZ samples Hs Hn) as (tr & Heq & Hread & Hall).
      eexists. split; [apply prepend_returned; exact Heq|].
      rewrite !count_app, Hread.
      split; [reflexivity | constructor; [reflexivity | exact Hall]].
    + apply Z.ltb_ge in Hlt. assert (n = 0%nat) by lia. subst n.
      exists []. repeat split. constructor.
Qed.

(** Too few samples: the loop never leaves. *)
Lemma calibration_loop_spins (script : list (option Sample)) :
  forall (sumX sumY sumZ : F32.float) (samples : Z),
    Z.of_nat (length (available script)) < CALIBRATION_SAMPLES - samples ->
    exists tr,
      calibration_loop script sumX sumY sumZ samples = Spinning tr /\
      Forall (fun e => is_calibration_step e = true) tr.
Proof.
  induction script as [|[s|] script IH]; intros sumX sumY sumZ samples Hn;
    cbn [calibration_loop];
    replace (samples <? CALIBRATION_SAMPLES) with true
      by (symmetry; apply Z.ltb_lt; lia).
  - exists []. split; [reflexivity | constructor].
  - destruct (IH (F32.add sumX (ax s)) (F32.add sumY (ay s))
                (F32.add sumZ (az s)) (samples + 1)) as (tr & -> & Hall);
      [cbn [available length] in Hn; lia|].
    eexists. split; [reflexivity|].
    destruct (Z.rem (samples + 1) 10 =? 0);
      repeat (constructor; [reflexivity|]); exact Hall.
  - destruct (IH sumX sumY sumZ samples) as (tr & -> & Hall); [exact Hn|].
    eexists. split; [reflexivity|].
    constructor; [reflexivity | exact Hall].
Qed.

(** [calibrateAccelerometer] on a sensor that delivers enough samples:
    [tr] is what the loop did. *)
Lemma calibrate_returns (script : list (option Sample)) (g : Globals) :
  (Z.to_nat CALIBRATION_SAMPLES <= length (available script))%nat ->
  exists tr,
    calibrateAccelerometer script g =
      Returned
        (set_offsets (mean_of (map ax (accepted script)))
                     (mean_of (map ay (accepted script)))
                     (minus_gravity (mean_of (map az (accepted script)))) g)
        ([SerialPrintln (Text "Calibrating accelerometer...");
          DigitalWrite LED_BLUE LOW]
         ++ tr
         ++ [SerialPrintln (Text "Calibration complete!");
             SerialPrint (Text "Offsets - X: ");
             SerialPrint (Num (mean_of (map ax (accepted script))) 6);
             SerialPrint (Text " Y: ");
             SerialPrint (Num (mean_of (map ay (accepted script))) 6);
             SerialPrint (Text " Z: ");
             SerialPrintln
               (Num (minus_gravity (mean_of (map az (accepted script)))) 6);
             DigitalWrite LED_BLUE HIGH]) /\
    count is_read tr = Z.to_nat CALIBRATION_SAMPLES /\
    Forall (fun e => is_calibration_step e = true) tr.
Proof.
  intros Hn.
  destruct (calibration_loop_returns script (Z.to_nat CALIBRATION_SAMPLES)
              F32.zero F32.zero F32.zero 0) as (tr & Heq & Hread & Hall);
    [reflexivity | exact Hn |].
  unfold calibrateAccelerometer, bind, emit. rewrite Heq.
  exists tr. split; [reflexivity|]. split; assumption.
Qed.

End Calibration.

(** C2: when the sensor delivers at least [CALIBRATION_SAMPLES] samples,
    [calibrateAccelerometer] returns, having read exactly
    [CALIBRATION_SAMPLES] of them (the first ones made available), and the
    offsets are the per-axis means of these samples (the sum of the component
    divided by [CALIBRATION_SAMPLES]), with 1.0 subtracted on Z only. *)
Theorem calibration_offsets_are_means
    (script : list (option Sample)) (g : WashSense.Globals) :
  (Z.to_nat WashSense.CALIBRATION_SAMPLES <= length (available script))%nat ->
  exists (g' : WashSense.Globals) (tr : Trace),
    WashSense.calibrateAccelerometer script g = Returned g' tr /\
    count is_read tr = 50%nat /\
    length (accepted script) = 50%nat /\
    WashSense.offsets g' =
      mkSample (mean_of (map ax (accepted script)))
               (mean_of (map ay (accepted script)))
               (minus_gravity (mean_of (map az (accepted script)))).
Proof.
  intros Hn.
  destruct (calibrate_returns script g Hn) as (tr & Heq & Hread & _).
  eexists. eexists. split; [exact Heq|].
  split; [rewrite !count_app, Hread; reflexivity|].
  split; [|reflexivity].
  unfold accepted. rewrite length_firstn. apply Nat.min_l. exact Hn.
Qed.

Lemma calibration_offsets_are_means_witness :
  (Z.to_nat WashSense.CALIBRATION_SAMPLES
   <= length (available resting_script))%nat /\
  exists (g' : WashSense.Globals) (tr : Trace),
    WashSense.calibrateAccelerometer resting_script WashSense.initial_globals
      = Returned g' tr /\
    count is_read tr = 50%nat /\
    length (accepted resting_script) = 50%nat /\
    WashSense.offsets g' =
      mkSample (mean_of (map ax (accepted resting_script)))
               (mean_of (map ay (accepted resting_script)))
               (minus_gravity (mean_of (map az (accepted resting_script)))).
Proof.
  assert (H : (Z.to_nat WashSense.CALIBRATION_SAMPLES
               <= length (available resting_script))%nat)
    by (vm_compute; repeat constructor).
  split; [exact H|].
  exact (calibration_offsets_are_means resting_script
           WashSense.initial_globals H).
Defined.

(** Calibration at work on the resting sensor, whose samples are the floats
    nearest to (0.02, 0.01, 0.98): the offsets are the means as the loop
    accumulates them, a few units in the last place away from the floats
    nearest to (0.02, 0.01, -0.02), and they are numbers. *)
Example resting_calibration :
  exists tr : Trace,
    WashSense.calibrateAccelerometer resting_script WashSense.initial_globals
    = Returned
        (WashSense.set_offsets (S754_finite false 10737414 (-29))
                               (S754_finite false 10737414 (-30))
                               (S754_finite true 10737632 (-29))
                               WashSense.initial_globals)
        tr /\
    (ratio 2 100, ratio 1 100, ratio (-2) 100)
    = (S754_finite false 10737418 (-29), S754_finite false 10737418 (-30),
       S754_finite true 10737418 (-29)).
Proof. eexists. split; vm_compute; reflexivity. Qed.

(** ** The correction step (C6) *)

(** A number minus itself is [+0.0]. *)
Lemma sub_self (x : F32.float) :
  F32.is_finite x = true -> F32.sub x x = F32.zero.
Proof.
  destruct x as [[|]|s| |s m e]; try discriminate; intros _; try reflexivity.
  unfold F32.sub, SFsub. rewrite Z.min_id.
  unfold shl_align. rewrite !Z.sub_diag. reflexivity.
Qed.

(** Subtracting [+0.0] changes nothing. *)
Lemma sub_zero (x : F32.float) : F32.sub x F32.zero = x.
Proof. destruct x as [[|]|s| |s m e]; reflexivity. Qed.

(** Rounding a non-negative value gives a non-negative float or NaN. *)
Lemma binary_round_aux_nonneg (mx ex : Z) (lx : location) :
  F32.ltb (binary_round_aux F32.prec F32.emax false mx ex lx) F32.zero = false /\
  (F32.is_nan (binary_round_aux F32.prec F32.emax false mx ex lx) = false ->
   F32.leb F32.zero (binary_round_aux F32.prec F32.emax false mx ex lx) = true).
Proof.
  unfold binary_round_aux.
  destruct (shr_fexp F32.prec F32.emax mx ex lx) as [mrs' e'].
  destruct (shr_fexp F32.prec F32.emax _ e' loc_Exact) as [mrs'' e''].
  destruct (shr_m mrs'') as [|m|m]; [| |split; [reflexivity|discriminate]].
  - split; reflexivity.
  - destruct (e'' <=? F32.emax - F32.prec); split; reflexivity.
Qed.

Lemma sqrt_nonneg (x : F32.float) :
  F32.ltb (F32.sqrt x) F32.zero = false /\
  (F32.is_nan (F32.sqrt x) = false -> F32.leb F32.zero (F32.sqrt x) = true).
Proof.
  destruct x as [s|[|]| |[|] m e]; simpl;
    try (split; [reflexivity | try discriminate; reflexivity]).
  unfold F32.sqrt, SFsqrt.
  destruct (SFsqrt_core_binary F32.prec F32.emax (Z.pos m) e) as [[mz ez] lz].
  apply binary_round_aux_nonneg.
Qed.

Lemma norm_agrees (g : WashSense.Globals) (s : Sample) :
  WashSense.magnitude (WashSense.corrected g s) =
  euclidean_norm (difference s (WashSense.offsets g)).
Proof. reflexivity. Qed.

Lemma part000_difference (s : Sample) :
  Part000.corrected s = difference s part000_offset.
Proof.
  unfold Part000.corrected, difference, part000_offset. simpl.
  now rewrite !sub_zero.
Qed.

(** The scenario of the specification: raw (1.02, 0.01, 0.98) with offsets
    (0.02, 0.01, -0.02) is published as (1, 0, 1) and the square root of 2. *)
Example scenario_end_to_end :
  published
    (WashSense.readAndSendSensorData
       (Some (mkSample (ratio 102 100) (ratio 1 100) (ratio 98 100)))
       scenario_globals)
  = [(vibrationX, F32.of_int 1); (vibrationY, F32.zero);
     (vibrationZ, F32.of_int 1); (vibrationMag, F32.sqrt (F32.of_int 2))].
Proof. vm_compute. reflexivity. Qed.

(** C6: the values [readAndSendSensorData] publishes are, in the order X, Y,
    Z, magnitude, the component-wise difference raw - O and the Euclidean
    norm of that difference; when the raw sample, three numbers, equals the
    offset O, they are all [0.0]; the norm is never negative, and is at least
    zero whenever it is a number.  The second sketch publishes the same
    quantities for its built-in offset (1, 0, 0). *)
Theorem correction_round_trip :
  (forall (g : WashSense.Globals) (raw : Sample),
      published (WashSense.readAndSendSensorData (Some raw) g) =
      let d := difference raw (WashSense.offsets g) in
      [(vibrationX, ax d); (vibrationY, ay d); (vibrationZ, az d);
       (vibrationMag, euclidean_norm d)]) /\
  (forall (g : WashSense.Globals) (raw : Sample),
      finite_sample raw ->
      raw = WashSense.offsets g ->
      difference raw (WashSense.offsets g) = origin /\
      euclidean_norm origin = F32.zero /\
      published (WashSense.readAndSendSensorData (Some raw) g) = all_zero) /\
  (forall c : Sample,
      F32.ltb (euclidean_norm c) F32.zero = false /\
      (F32.is_nan (euclidean_norm c) = false ->
       F32.leb F32.zero (euclidean_norm c) = true)) /\
  (forall raw : Sample,
      published (Part000.while_body (Some raw)) =
      let d := difference raw part000_offset in
      [(vibrationX, ax d); (vibrationY, ay d); (vibrationZ, az d);
       (vibrationMag, euclidean_norm d)]).
Proof.
  split; [|split; [|split]].
  - intros g raw. reflexivity.
  - intros g raw (Hx & Hy & Hz) Heq.
    assert (Hd : difference raw (WashSense.offsets g) = origin).
    { rewrite <- Heq. unfold difference, origin. now rewrite !sub_self. }
    split; [exact Hd|]. split; [reflexivity|].
    change (published (WashSense.readAndSendSensorData (Some raw) g))
      with (let d := difference raw (WashSense.offsets g) in
            [(vibrationX, ax d); (vibrationY, ay d); (vibrationZ, az d);
             (vibrationMag, euclidean_norm d)]).
    rewrite Hd. reflexivity.
  - intros c. apply sqrt_nonneg.
  - intros raw. rewrite <- part000_difference. reflexivity.
Qed.

Lemma correction_round_trip_witness :
  finite_sample (WashSense.offsets scenario_globals) /\
  published (WashSense.readAndSendSensorData
               (Some (WashSense.offsets scenario_globals)) scenario_globals)
  = all_zero.
Proof.
  assert (H : finite_sample (WashSense.offsets scenario_globals))
    by (repeat split).
  split; [exact H|].
  exact (proj2 (proj2 (proj1 (proj2 correction_round_trip)
                         scenario_globals (WashSense.offsets scenario_globals)
                         H eq_refl))).
Defined.

(** ** Bootstrap *)

Section Bootstrap.
Import WashSense.

(** The sensor does not start: [setup] ends in [showError] before anything
    else is done. *)
Lemma setup_imu_failure (b : BootInput) (g : Globals) :
  imu_begin b = false ->
  setup b g =
  Halted [SerialBegin 115200;
          PinMode LED_GREEN; PinMode LED_RED; PinMode LED_BLUE;
          DigitalWrite LED_GREEN HIGH; DigitalWrite LED_RED HIGH;
          DigitalWrite LED_BLUE HIGH;
          ImuBegin false;
          SerialPrintln (Text "Failed to initialize IMU!");
          DigitalWrite LED_RED LOW].
Proof. intros H. unfold setup. rewrite H. reflexivity. Qed.

(** Otherwise calibration runs; [tr] is what it did. *)
Lemma setup_after_calibration (b : BootInput) (g : Globals) :
  imu_begin b = true -> enough_samples b ->
  exists gc tr,
    calibrateAccelerometer (calib_script b) g = Returned gc tr /\
    offsets gc =
      mkSample (mean_of (map ax (accepted (calib_script b))))
               (mean_of (map ay (accepted (calib_script b))))
               (minus_gravity (mean_of (map az (accepted (calib_script b))))) /\
    previousMillis gc = previousMillis g /\
    connectionActive gc = connectionActive g /\
    count is_publish tr = 0%nat /\
    count is_peer_query tr = 0%nat /\
    count is_calibration_log tr = 1%nat /\
    setup b g =
      if ble_begin b
      then Returned gc
             (boot_calls ++ tr ++ [BleBegin true]
              ++ advertising_calls ++ initial_writes)
      else Halted
             (boot_calls ++ tr
              ++ [BleBegin false; SerialPrintln (Text "Starting BLE failed!");
                  DigitalWrite LED_RED LOW]).
Proof.
  intros Himu Hn.
  destruct (calibrate_returns (calib_script b) g Hn)
    as (trc & Heq & _ & Hall).
  eexists. eexists. split; [exact Heq|].
  split; [reflexivity|]. split; [reflexivity|]. split; [reflexivity|].
  assert (Hcount : forall p,
             (forall e, is_calibration_step e = true -> p e = false) ->
             count p trc = 0%nat)
    by (intros p Hp; now apply count_disjoint with (q := is_calibration_step)).
  split; [|split; [|split]].
  - rewrite !count_app, Hcount; [reflexivity | now intros []].
  - rewrite !count_app, Hcount; [reflexivity | now intros []].
  - rewrite !count_app, Hcount; [reflexivity | now intros []].
  - unfold setup. rewrite Himu, Heq.
    destruct (ble_begin b); cbn -[set_offsets mean_of minus_gravity accepted];
      f_equal; unfold boot_calls; cbn [app]; repeat f_equal;
      rewrite <- !app_assoc; reflexivity.
Qed.

(** Without the samples, [setup] stays in the calibration loop. *)
Lemma setup_stalls (b : BootInput) (g : Globals) :
  imu_begin b = true -> ~ enough_samples b ->
  exists tr, setup b g = Spinning tr /\ count is_calibration_log tr = 0%nat.
Proof.
  intros Himu Hn.
  destruct (calibration_loop_spins (calib_script b) F32.zero F32.zero F32.zero 0)
    as (tr & Heq & Hall).
  { unfold enough_samples in Hn. unfold CALIBRATION_SAMPLES in *. lia. }
  unfold setup, calibrateAccelerometer. rewrite Himu.
  cbn [negb bind emit ret prepend]. rewrite Heq.
  eexists. split; [reflexivity|].
  cbn [app]. rewrite !count_cons.
  rewrite (count_disjoint is_calibration_log is_calibration_step tr);
    [reflexivity | now intros [] | exact Hall].
Qed.

(** The device streams only after a complete bootstrap. *)
Lemma streaming_needs_full_bootstrap (b : BootInput) (g : Globals) (tr : Trace) :
  power_on b = (Streaming g, tr) ->
  imu_begin b = true /\ ble_begin b = true /\ enough_samples b.
Proof.
  unfold power_on. intros H.
  destruct (imu_begin b) eqn:Himu.
  - destruct (le_lt_dec (Z.to_nat CALIBRATION_SAMPLES)
                (length (available (calib_script b)))) as [Hn|Hn].
    + destruct (setup_after_calibration b initial_globals Himu Hn)
        as (gc & trc & _ & _ & _ & _ & _ & _ & _ & Hsetup).
      rewrite Hsetup in H.
      destruct (ble_begin b); [auto | discriminate H].
    + destruct (setup_stalls b initial_globals Himu) as (trs & Hs & _).
      { unfold enough_samples. lia. }
      rewrite Hs in H. discriminate H.
  - rewrite (setup_imu_failure b _ Himu) in H. discriminate H.
Qed.

(** Whatever happens at power-on, calibration completes at most once. *)
Lemma power_on_calibrates_at_most_once (b : BootInput) :
  (count is_calibration_log (snd (power_on b)) <= 1)%nat.
Proof.
  unfold power_on.
  destruct (imu_begin b) eqn:Himu.
  - destruct (le_lt_dec (Z.to_nat CALIBRATION_SAMPLES)
                (length (available (calib_script b)))) as [Hn|Hn].
    + destruct (setup_after_calibration b initial_globals Himu Hn)
        as (gc & trc & _ & _ & _ & _ & _ & _ & Hlog & Hsetup).
      rewrite Hsetup.
      destruct (ble_begin b); cbn [snd]; rewrite !count_app, Hlog;
        apply Nat.eq_le_incl; reflexivity.
    + destruct (setup_stalls b initial_globals Himu) as (trs & Hs & Hlog).
      { unfold enough_samples. lia. }
      rewrite Hs. cbn [snd]. rewrite Hlog. auto.
  - rewrite (setup_imu_failure b _ Himu). cbn [snd]. unfold count. simpl. auto.
Qed.

End Bootstrap.

(** ** Silence while disconnected (C5) *)

Lemma published_unpublished (tr : Trace) :
  count is_publish tr = 0%nat -> published tr = [].
Proof.
  induction tr as [|e tr IH]; intros H; [reflexivity|].
  rewrite count_cons in H.
  destruct e; simpl in *; try (apply IH; exact H). discriminate H.
Qed.

(** C5, as stated, fails at bootstrap: [setup()] returns with the connection
    flag off, no peer having been seen, and has written the four
    characteristics. *)
Lemma bootstrap_writes_while_disconnected :
  ~ silent_while_disconnected
      (WashSense.setup resting_boot WashSense.initial_globals).
Proof.
  intros H.
  assert (Hn : enough_samples resting_boot)
    by (unfold enough_samples; vm_compute; repeat constructor).
  destruct (setup_after_calibration resting_boot WashSense.initial_globals
              eq_refl Hn)
    as (gc & trc & _ & _ & _ & Hconn & Hpub & _ & _ & Hsetup).
  cbn [WashSense.ble_begin resting_boot] in Hsetup.
  specialize (H _ _ Hsetup Hconn).
  rewrite !count_app, Hpub in H. discriminate H.
Qed.

(** C5 (amended): a pass through [loop()] that leaves the controller
    disconnected writes no characteristic and does not touch the sensor,
    whatever the clock and the sensor say; its only delay is the idle
    [delay(100)].  Outside the passes, a successful [setup()] writes the four
    initial values [0.0] with the connection flag off, and nothing else. *)
Theorem disconnected_pass_publishes_nothing :
  (forall (i : LoopInput) (g : WashSense.Globals),
      WashSense.connectionActive (fst (WashSense.loop i g)) = false ->
      count is_publish (snd (WashSense.loop i g)) = 0%nat /\
      count is_sampling (snd (WashSense.loop i g)) = 0%nat /\
      delays (snd (WashSense.loop i g)) = [100]) /\
  (forall b : WashSense.BootInput,
      WashSense.imu_begin b = true ->
      WashSense.ble_begin b = true ->
      enough_samples b ->
      exists (g : WashSense.Globals) (tr : Trace),
        WashSense.setup b WashSense.initial_globals = Returned g tr /\
        WashSense.connectionActive g = false /\
        published tr = all_zero).
Proof.
  split.
  - intros i g. rewrite loop_connection. apply loop_disconnected.
  - intros b Himu Hble Hn.
    destruct (setup_after_calibration b WashSense.initial_globals Himu Hn)
      as (gc & trc & _ & _ & _ & Hconn & Hpub & _ & _ & Hsetup).
    rewrite Hble in Hsetup.
    exists gc. eexists. split; [exact Hsetup|]. split; [exact Hconn|].
    rewrite !published_app, (published_unpublished trc Hpub). reflexivity.
Qed.

Lemma disconnected_pass_publishes_nothing_witness :
  (WashSense.connectionActive
     (fst (WashSense.loop peer_gone_input connected_globals)) = false /\
   count is_publish (snd (WashSense.loop peer_gone_input connected_globals))
   = 0%nat /\
   count is_sampling (snd (WashSense.loop peer_gone_input connected_globals))
   = 0%nat /\
   delays (snd (WashSense.loop peer_gone_input connected_globals)) = [100]) /\
  (WashSense.imu_begin resting_boot = true /\
   WashSense.ble_begin resting_boot = true /\
   enough_samples resting_boot /\
   exists (g : WashSense.Globals) (tr : Trace),
     WashSense.setup resting_boot WashSense.initial_globals = Returned g tr /\
     WashSense.connectionActive g = false /\
     published tr = all_zero).
Proof.
  assert (Hn : enough_samples resting_boot)
    by (unfold enough_samples; vm_compute; repeat constructor).
  split.
  - split; [reflexivity|].
    exact (proj1 disconnected_pass_publishes_nothing
             peer_gone_input connected_globals eq_refl).
  - split; [reflexivity|]. split; [reflexivity|]. split; [exact Hn|].
    exact (proj2 disconnected_pass_publishes_nothing
             resting_boot eq_refl eq_refl Hn).
Defined.

(** ** The device over time *)

Lemma pin_level_app (pin : Z) (t1 t2 : Trace) :
  forall held, pin_level pin (t1 ++ t2) held
               = pin_level pin t2 (pin_level pin t1 held).
Proof.
  induction t1 as [|e t1 IH]; intros held; [reflexivity|].
  destruct e; simpl; apply IH.
Qed.

Lemma attribute_app (c : Attr) (t1 t2 : Trace) :
  forall held, attribute c (t1 ++ t2) held
               = attribute c t2 (attribute c t1 held).
Proof.
  induction t1 as [|e t1 IH]; intros held; [reflexivity|].
  destruct e; simpl; apply IH.
Qed.

(** A trace that writes no characteristic leaves them as they are. *)
Lemma attribute_unpublished (c : Attr) (tr : Trace) :
  count is_publish tr = 0%nat ->
  forall held, attribute c tr held = held.
Proof.
  induction tr as [|e tr IH]; intros H held; [reflexivity|].
  rewrite count_cons in H.
  destruct e; simpl in *; try (apply IH; exact H). discriminate H.
Qed.

Section Running.
Import WashSense.

(** While streaming, the device does what [loops] does. *)
Lemma run_streaming (inputs : list LoopInput) :
  forall g : Globals,
    run (Streaming g) inputs
    = (Streaming (fst (loops g inputs)), snd (loops g inputs)).
Proof.
  induction inputs as [|i inputs IH]; intros g; [reflexivity|].
  cbn [run tick loops]. destruct (loop i g) as [g1 t1].
  rewrite IH. now destruct (loops g1 inputs).
Qed.

(** Once halted, the device only turns in [showError]'s loop. *)
Lemma run_halt (inputs : list LoopInput) :
  run Halt inputs = (Halt, concat (map (fun _ => showError_cycle) inputs)).
Proof.
  induction inputs as [|i inputs IH]; [reflexivity|].
  cbn [run tick]. rewrite IH. reflexivity.
Qed.

Lemma halt_cycles_idle (n : list LoopInput) :
  count is_processing (concat (map (fun _ => showError_cycle) n)) = 0%nat /\
  forall held, pin_level LED_RED (concat (map (fun _ => showError_cycle) n)) held
               = held.
Proof.
  induction n as [|i n [IH1 IH2]]; [split; reflexivity|].
  cbn [map concat]. split.
  - now rewrite count_app, IH1.
  - intros held. now rewrite pin_level_app, IH2.
Qed.

(** A pass through [loop()] reads the offsets and leaves them alone. *)
Lemma loop_keeps_offsets (i : LoopInput) (g : Globals) :
  offsets (fst (loop i g)) = offsets g /\
  count is_calibration_log (snd (loop i g)) = 0%nat.
Proof. loop_cases i g; split; reflexivity. Qed.

Lemma loops_keep_offsets (inputs : list LoopInput) :
  forall g : Globals,
    offsets (fst (loops g inputs)) = offsets g /\
    count is_calibration_log (snd (loops g inputs)) = 0%nat.
Proof.
  induction inputs as [|i inputs IH]; intros g; [split; reflexivity|].
  rewrite loops_cons. cbn [fst snd].
  destruct (IH (fst (loop i g))) as [Ho Hc].
  destruct (loop_keeps_offsets i g) as [Ho' Hc'].
  split; [congruence | now rewrite count_app, Hc, Hc'].
Qed.

End Running.

Section Part000Running.
Import Part000.

Lemma part000_run_halt (inputs : list LoopInput) :
  run Halt inputs = (Halt, []).
Proof.
  induction inputs as [|i inputs IH]; [reflexivity|].
  cbn [run tick]. rewrite IH. reflexivity.
Qed.

Lemma wait_serial_returns (script : list bool) :
  In true script ->
  exists tr, wait_serial script = Returned tt tr /\
             count is_publish tr = 0%nat /\ count is_sampling tr = 0%nat.
Proof.
  induction script as [|[|] script IH]; intros Hin.
  - destruct Hin.
  - eexists. repeat split.
  - destruct Hin as [Hin|Hin]; [discriminate|].
    destruct (IH Hin) as (tr & Heq & H1 & H2).
    cbn [wait_serial]. rewrite Heq.
    eexists. split; [reflexivity|].
    cbn [app]. rewrite !count_cons, H1, H2. split; reflexivity.
Qed.

Lemma part000_setup_failure (b : BootInput) :
  In true (serial_script b) ->
  imu_begin b = false \/ ble_begin b = false ->
  exists tr,
    setup b = Halted (tr ++ [DigitalWrite LED_RED LOW]) /\
    count is_publish tr = 0%nat /\ count is_sampling tr = 0%nat.
Proof.
  intros Hin Hfail.
  destruct (wait_serial_returns _ Hin) as (trs & Hs & H1 & H2).
  unfold setup. rewrite Hs.
  destruct (imu_begin b) eqn:Himu.
  - destruct Hfail as [Hf|Hf]; [discriminate|]. rewrite Hf.
    exists ([SerialBegin 115200] ++ trs
            ++ [PinMode LED_GREEN; PinMode LED_RED;
                DigitalWrite LED_GREEN HIGH; DigitalWrite LED_RED HIGH;
                ImuBegin true;
                SerialPrintln (Text "IMU initialized."); BleBegin false;
                SerialPrintln (Text "Starting BLE failed!")]).
    split.
    + cbn. rewrite <- !app_assoc. reflexivity.
    + rewrite !count_app, H1, H2. split; reflexivity.
  - exists ([SerialBegin 115200] ++ trs
            ++ [PinMode LED_GREEN; PinMode LED_RED;
                DigitalWrite LED_GREEN HIGH; DigitalWrite LED_RED HIGH;
                ImuBegin false;
                SerialPrintln (Text "Failed to initialize IMU!")]).
    split.
    + cbn. rewrite <- !app_assoc. reflexivity.
    + rewrite !count_app, H1, H2. split; reflexivity.
Qed.

End Part000Running.

Lemma writes_to_unpublished (c : Attr) (tr : Trace) :
  count is_publish tr = 0%nat -> count (writes_to c) tr = 0%nat.
Proof.
  induction tr as [|e tr IH]; intros H; [reflexivity|].
  rewrite count_cons in *.
  destruct e; simpl in *; try (apply IH; exact H). discriminate H.
Qed.

(** ** The offsets are written once (C8) *)

(** C8: in any power-on cycle calibration completes at most once.  A cycle
    in which the sensor and the radio start and the sensor delivers its
    samples reaches the loop; a cycle that reaches the loop has calibrated
    exactly once, in [setup()], and streams with the offsets calibration
    computed; no later pass through [loop()] changes the offsets or
    calibrates again, whatever the inputs. *)
Theorem offsets_fixed_after_calibration :
  (forall b : WashSense.BootInput,
      (count is_calibration_log (snd (WashSense.power_on b)) <= 1)%nat) /\
  (forall b : WashSense.BootInput,
      WashSense.imu_begin b = true ->
      WashSense.ble_begin b = true ->
      enough_samples b ->
      exists (g : WashSense.Globals) (tr : Trace),
        WashSense.power_on b = (WashSense.Streaming g, tr)) /\
  (forall (b : WashSense.BootInput) (g : WashSense.Globals) (tr : Trace),
      WashSense.power_on b = (WashSense.Streaming g, tr) ->
      count is_calibration_log tr = 1%nat /\
      WashSense.offsets g =
        mkSample (mean_of (map ax (accepted (WashSense.calib_script b))))
                 (mean_of (map ay (accepted (WashSense.calib_script b))))
                 (minus_gravity
                    (mean_of (map az (accepted (WashSense.calib_script b))))) /\
      forall inputs : list LoopInput,
      exists (g' : WashSense.Globals) (tr' : Trace),
        WashSense.run (WashSense.Streaming g) inputs
        = (WashSense.Streaming g', tr') /\
        WashSense.offsets g' = WashSense.offsets g /\
        count is_calibration_log tr' = 0%nat).
Proof.
  split; [exact power_on_calibrates_at_most_once|]. split.
  - intros b Himu Hble Hn.
    destruct (setup_after_calibration b WashSense.initial_globals Himu Hn)
      as (gc & trc & _ & _ & _ & _ & _ & _ & _ & Hsetup).
    rewrite Hble in Hsetup.
    exists gc. eexists. unfold WashSense.power_on. rewrite Hsetup. reflexivity.
  - intros b g tr Hon.
    destruct (streaming_needs_full_bootstrap b g tr Hon) as (Himu & Hble & Hn).
    destruct (setup_after_calibration b WashSense.initial_globals Himu Hn)
      as (gc & trc & _ & Hoff & _ & _ & _ & _ & Hlog & Hsetup).
    rewrite Hble in Hsetup.
    unfold WashSense.power_on in Hon. rewrite Hsetup in Hon.
    pose proof (f_equal fst Hon) as Hg. pose proof (f_equal snd Hon) as Ht.
    cbn [fst snd] in Hg, Ht. injection Hg as <-. subst tr.
    split; [rewrite !count_app, Hlog; reflexivity|].
    split; [exact Hoff|].
    intros inputs. rewrite run_streaming.
    eexists. eexists. split; [reflexivity|].
    apply loops_keep_offsets.
Qed.

Lemma offsets_fixed_after_calibration_witness :
  WashSense.imu_begin resting_boot = true /\
  WashSense.ble_begin resting_boot = true /\
  enough_samples resting_boot /\
  exists (g : WashSense.Globals) (tr : Trace),
    WashSense.power_on resting_boot = (WashSense.Streaming g, tr) /\
    count is_calibration_log tr = 1%nat /\
    forall inputs : list LoopInput,
    exists (g' : WashSense.Globals) (tr' : Trace),
      WashSense.run (WashSense.Streaming g) inputs
      = (WashSense.Streaming g', tr') /\
      WashSense.offsets g' = WashSense.offsets g /\
      count is_calibration_log tr' = 0%nat.
Proof.
  assert (H : enough_samples resting_boot)
    by (unfold enough_samples; vm_compute; repeat constructor).
  split; [reflexivity|]. split; [reflexivity|]. split; [exact H|].
  destruct (proj1 (proj2 offsets_fixed_after_calibration)
              resting_boot eq_refl eq_refl H) as (g & tr & Hon).
  exists g, tr. split; [exact Hon|].
  destruct (proj2 (proj2 offsets_fixed_after_calibration) resting_boot g tr Hon)
    as (Hlog & _ & Hrun).
  split; [exact Hlog | exact Hrun].
Defined.

(** ** Initial values of the characteristics (C10) *)

(** C10: when bootstrap succeeds, the last calls of [setup()], after the
    service is registered and advertising has started, write [0.0] to each of
    the four characteristics, once; nothing was written to them before, no
    peer has been asked for yet, and the connection flag is still off.  Hence
    each characteristic holds [0.0] from then on, for as long as the passes
    through [loop()] publish no sample. *)
Theorem characteristics_start_at_zero (b : WashSense.BootInput) :
  WashSense.imu_begin b = true ->
  WashSense.ble_begin b = true ->
  enough_samples b ->
  exists (g : WashSense.Globals) (tr : Trace),
    WashSense.power_on b
    = (WashSense.Streaming g, tr ++ advertising_calls ++ initial_writes) /\
    count is_publish (tr ++ advertising_calls) = 0%nat /\
    count is_peer_query (tr ++ advertising_calls ++ initial_writes) = 0%nat /\
    WashSense.connectionActive g = false /\
    (forall c : Attr,
        count (writes_to c) (tr ++ advertising_calls ++ initial_writes) = 1%nat) /\
    forall (inputs : list LoopInput) (c : Attr),
      count is_publish (snd (WashSense.run (WashSense.Streaming g) inputs))
      = 0%nat ->
      attribute c
        ((tr ++ advertising_calls ++ initial_writes)
         ++ snd (WashSense.run (WashSense.Streaming g) inputs)) None
      = Some F32.zero.
Proof.
  intros Himu Hble Hn.
  destruct (setup_after_calibration b WashSense.initial_globals Himu Hn)
    as (gc & trc & _ & _ & _ & Hconn & Hpub & Hpeer & _ & Hsetup).
  rewrite Hble in Hsetup.
  exists gc, (boot_calls ++ trc ++ [BleBegin true]).
  assert (Hpre : count is_publish
                   ((boot_calls ++ trc ++ [BleBegin true]) ++ advertising_calls)
                 = 0%nat)
    by (rewrite !count_app, Hpub; reflexivity).
  unfold WashSense.power_on. rewrite Hsetup.
  split; [now rewrite <- !app_assoc|]. split; [exact Hpre|].
  split; [rewrite !count_app, Hpeer; reflexivity|].
  split; [exact Hconn|]. split.
  - intros c. rewrite app_assoc, count_app.
    rewrite (writes_to_unpublished c _ Hpre). now destruct c.
  - intros inputs c Hnone.
    rewrite attribute_app, (attribute_unpublished c _ Hnone).
    rewrite app_assoc, attribute_app, (attribute_unpublished c _ Hpre).
    now destruct c.
Qed.

Lemma characteristics_start_at_zero_witness :
  WashSense.imu_begin resting_boot = true /\
  WashSense.ble_begin resting_boot = true /\
  enough_samples resting_boot /\
  exists (g : WashSense.Globals) (tr : Trace),
    WashSense.power_on resting_boot
    = (WashSense.Streaming g, tr ++ advertising_calls ++ initial_writes) /\
    count is_publish (tr ++ advertising_calls) = 0%nat /\
    count is_peer_query (tr ++ advertising_calls ++ initial_writes) = 0%nat /\
    WashSense.connectionActive g = false /\
    (forall c : Attr,
        count (writes_to c) (tr ++ advertising_calls ++ initial_writes) = 1%nat) /\
    forall (inputs : list LoopInput) (c : Attr),
      count is_publish (snd (WashSense.run (WashSense.Streaming g) inputs))
      = 0%nat ->
      attribute c
        ((tr ++ advertising_calls ++ initial_writes)
         ++ snd (WashSense.run (WashSense.Streaming g) inputs)) None
      = Some F32.zero.
Proof.
  assert (H : enough_samples resting_boot)
    by (unfold enough_samples; vm_compute; repeat constructor).
  split; [reflexivity|]. split; [reflexivity|]. split; [exact H|].
  exact (characteristics_start_at_zero resting_boot eq_refl eq_refl H).
Defined.

(** ** Failure of initialisation (C9) *)

(** C9, as stated, fails on the second sketch: after a failed start its
    [showError] spins in [while (1);] and never touches an indicator again,
    so no secondary indicator blinks. *)
Lemma part000_error_state_does_not_blink :
  ~ indicator_blinks
      (snd (Part000.run (fst (Part000.power_on part000_imu_failure_boot))
              five_polls)).
Proof. intros (pin & Hlow & _). exact Hlow. Qed.

(** C9 (amended): when [IMU.begin()] or [BLE.begin()] fails, [setup()] ends in
    [showError], which switches the red LED on and does not return: the
    device is halted, nothing was published, and when the sensor failed
    nothing was sampled or calibrated.  Halted is absorbing: every later turn
    leaves the device halted, with no initialisation retried, no calibration,
    no sampling, no publishing, no radio call, and the red LED as it is.  In
    [Arduino_BLE_wash_sense.ino] each turn blinks the blue LED (300 ms on,
    300 ms off); in the second sketch the halted device does nothing at
    all. *)
Theorem initialization_failure_halts :
  (forall b : WashSense.BootInput,
      WashSense.imu_begin b = false \/
      (WashSense.imu_begin b = true /\ WashSense.ble_begin b = false /\
       enough_samples b) ->
      exists tr : Trace,
        WashSense.power_on b
        = (WashSense.Halt, tr ++ [DigitalWrite WashSense.LED_RED LOW]) /\
        count is_publish tr = 0%nat /\
        (WashSense.imu_begin b = false ->
         count is_sampling tr = 0%nat /\ count is_calibration_log tr = 0%nat)) /\
  (forall inputs : list LoopInput,
      WashSense.run WashSense.Halt inputs
      = (WashSense.Halt,
         concat (map (fun _ => WashSense.showError_cycle) inputs)) /\
      count is_processing (snd (WashSense.run WashSense.Halt inputs)) = 0%nat /\
      forall held : option Level,
        pin_level WashSense.LED_RED
          (snd (WashSense.run WashSense.Halt inputs)) held = held) /\
  indicator_blinks WashSense.showError_cycle /\
  (forall b : Part000.BootInput,
      In true (Part000.serial_script b) ->
      Part000.imu_begin b = false \/ Part000.ble_begin b = false ->
      exists tr : Trace,
        Part000.power_on b
        = (Part000.Halt, tr ++ [DigitalWrite Part000.LED_RED LOW]) /\
        count is_publish tr = 0%nat /\ count is_sampling tr = 0%nat) /\
  (forall inputs : list LoopInput,
      Part000.run Part000.Halt inputs = (Part000.Halt, [])).
Proof.
  split; [|split; [|split; [|split]]].
  - intros b [Himu | (Himu & Hble & Hn)].
    + unfold WashSense.power_on.
      rewrite (setup_imu_failure b _ Himu).
      eexists (_ :: _ :: _ :: _ :: _ :: _ :: _ :: _ :: [_]).
      split; [reflexivity|]. repeat split.
    + destruct (setup_after_calibration b WashSense.initial_globals Himu Hn)
        as (gc & trc & _ & _ & _ & _ & Hpub & _ & _ & Hsetup).
      rewrite Hble in Hsetup.
      unfold WashSense.power_on. rewrite Hsetup.
      exists (boot_calls ++ trc
              ++ [BleBegin false; SerialPrintln (Text "Starting BLE failed!")]).
      split; [now rewrite <- !app_assoc|]. split.
      * rewrite !count_app, Hpub. reflexivity.
      * intros H. rewrite H in Himu. discriminate Himu.
  - intros inputs. rewrite run_halt. split; [reflexivity|].
    apply halt_cycles_idle.
  - exists WashSense.LED_BLUE. simpl. auto.
  - intros b Hin Hfail.
    destruct (part000_setup_failure b Hin Hfail) as (tr & Heq & H1 & H2).
    exists tr. unfold Part000.power_on. rewrite Heq. repeat split; assumption.
  - apply part000_run_halt.
Qed.

Lemma initialization_failure_halts_witness :
  (WashSense.imu_begin imu_failure_boot = false /\
   exists tr : Trace,
     WashSense.power_on imu_failure_boot
     = (WashSense.Halt, tr ++ [DigitalWrite WashSense.LED_RED LOW]) /\
     count is_publish tr = 0%nat /\
     (WashSense.imu_begin imu_failure_boot = false ->
      count is_sampling tr = 0%nat /\ count is_calibration_log tr = 0%nat)) /\
  (WashSense.imu_begin ble_failure_boot = true /\
   WashSense.ble_begin ble_failure_boot = false /\
   enough_samples ble_failure_boot /\
   exists tr : Trace,
     WashSense.power_on ble_failure_boot
     = (WashSense.Halt, tr ++ [DigitalWrite WashSense.LED_RED LOW]) /\
     count is_publish tr = 0%nat /\
     (WashSense.imu_begin ble_failure_boot = false ->
      count is_sampling tr = 0%nat /\ count is_calibration_log tr = 0%nat)) /\
  (In true (Part000.serial_script part000_imu_failure_boot) /\
   (Part000.imu_begin part000_imu_failure_boot = false \/
    Part000.ble_begin part000_imu_failure_boot = false) /\
   exists tr : Trace,
     Part000.power_on part000_imu_failure_boot
     = (Part000.Halt, tr ++ [DigitalWrite Part000.LED_RED LOW]) /\
     count is_publish tr = 0%nat /\ count is_sampling tr = 0%nat).
Proof.
  assert (H : enough_samples ble_failure_boot)
    by (unfold enough_samples; vm_compute; repeat constructor).
  assert (Hin : In true (Part000.serial_script part000_imu_failure_boot))
    by (simpl; auto).
  split; [|split].
  - split; [reflexivity|].
    exact (proj1 initialization_failure_halts imu_failure_boot
             (or_introl eq_refl)).
  - split; [reflexivity|]. split; [reflexivity|]. split; [exact H|].
    exact (proj1 initialization_failure_halts ble_failure_boot
             (or_intror (conj eq_refl (conj eq_refl H)))).
  - split; [exact Hin|]. split; [left; reflexivity|].
    exact (proj1 (proj2 (proj2 (proj2 initialization_failure_halts)))
             part000_imu_failure_boot Hin (or_introl eq_refl)).
Defined.

(** * Further properties of the code *)

(** ** Generalities *)

Lemma total_delay_app (t1 t2 : Trace) :
  total_delay (t1 ++ t2) = total_delay t1 + total_delay t2.
Proof.
  unfold total_delay. induction t1 as [|e t1 IH]; [reflexivity|].
  destruct e; simpl; rewrite ?IH; lia.
Qed.

Lemma outcome_trace_prepend {A : Type} (tr : Trace) (o : Outcome A) :
  outcome_trace (prepend tr o) = tr ++ outcome_trace o.
Proof. now destruct o. Qed.

Lemma pin_level_other (pin : Z) (tr : Trace) :
  Forall (fun e => match e with
                   | DigitalWrite p _ => p =? pin
                   | _ => false
                   end = false) tr ->
  forall held, pin_level pin tr held = held.
Proof.
  induction 1 as [|e tr He _ IH]; intros held; [reflexivity|].
  destruct e; simpl; try apply IH. rewrite He. apply IH.
Qed.

(** ** How long calibration blocks (X1) *)

Section CalibrationTiming.
Import WashSense.

(** What accepting one sample adds to the trace: the pause, and the pulse at
    every tenth sample. *)
Lemma accepted_sample_calls (s : Sample) (pulse : bool) :
  let tr := [AccelerationAvailable true; ReadAcceleration s]
            ++ (if pulse then blinkLED else []) ++ [Delay 20] in
  total_delay tr = 20 + (if pulse then 10 else 0) /\
  Z.of_nat (count (is_write_of LED_GREEN LOW) tr) = (if pulse then 1 else 0) /\
  count is_ready_poll tr = 1%nat /\
  count is_idle_poll tr = 0%nat.
Proof. destruct pulse; repeat split. Qed.

Lemma tenth_sample (samples : Z) :
  0 <= samples ->
  (samples + 1) / 10 =
  samples / 10 + (if Z.rem (samples + 1) 10 =? 0 then 1 else 0).
Proof.
  intros H0.
  destruct (Z.rem (samples + 1) 10 =? 0) eqn:E;
    [apply Z.eqb_eq in E | apply Z.eqb_neq in E];
    Z.to_euclidean_division_equations; lia.
Qed.

(** With [n] samples still to accept, the loop pauses 20 ms after each of
    them and pulses for 10 ms at every tenth; a poll that finds no sample
    adds no delay. *)
Lemma calibration_loop_timing (script : list (option Sample)) :
  forall (n : nat) (sumX sumY sumZ : F32.float) (samples : Z),
    samples = 50 - Z.of_nat n ->
    0 <= samples ->
    (n <= length (available script))%nat ->
    exists sums tr,
      calibration_loop script sumX sumY sumZ samples = Returned sums tr /\
      total_delay tr = 20 * Z.of_nat n + 10 * (5 - samples / 10) /\
      Z.of_nat (count (is_write_of LED_GREEN LOW) tr) = 5 - samples / 10 /\
      count is_ready_poll tr = n /\
      (count is_idle_poll tr <= idle_polls script)%nat.
Proof.
  assert (Hdone : forall samples, samples = 50 -> 5 - samples / 10 = 0)
    by (intros ? ->; reflexivity).
  induction script as [|[s|] script IH];
    intros n sumX sumY sumZ samples Hs H0 Hn.
  - simpl in Hn. assert (n = 0%nat) by lia. subst n.
    cbn [calibration_loop].
    replace (samples <? CALIBRATION_SAMPLES) with false
      by (symmetry; apply Z.ltb_ge; unfold CALIBRATION_SAMPLES; lia).
    eexists. exists []. split; [reflexivity|].
    rewrite (Hdone samples) by lia. repeat split. apply Nat.le_refl.
  - destruct n as [|n].
    + cbn [calibration_loop].
      replace (samples <? CALIBRATION_SAMPLES) with false
        by (symmetry; apply Z.ltb_ge; unfold CALIBRATION_SAMPLES; lia).
      eexists. exists []. split; [reflexivity|].
      rewrite (Hdone samples) by lia. repeat split. apply Nat.le_0_l.
    + cbn [calibration_loop].
      replace (samples <? CALIBRATION_SAMPLES) with true
        by (symmetry; apply Z.ltb_lt; unfold CALIBRATION_SAMPLES; lia).
      destruct (IH n (F32.add sumX (ax s)) (F32.add sumY (ay s))
                  (F32.add sumZ (az s)) (samples + 1))
        as (sums & tr & Heq & Hd & Hp & Hr & Hi);
        [lia | lia | simpl in Hn; lia |].
      rewrite Heq. cbn [prepend]. eexists. eexists. split; [reflexivity|].
      destruct (accepted_sample_calls s (Z.rem (samples + 1) 10 =? 0))
        as (Bd & Bp & Br & Bi).
      pose proof (tenth_sample samples H0) as Hstep.
      remember ([AccelerationAvailable true; ReadAcceleration s]
                ++ (if Z.rem (samples + 1) 10 =? 0 then blinkLED else [])
                ++ [Delay 20]) as blk eqn:Hblk.
      clear Hblk.
      rewrite total_delay_app, !count_app, Bd, Br, Bi, Hd, Hr.
      rewrite Nat2Z.inj_add, Bp, Hp.
      change (idle_polls (Some s :: script)) with (idle_polls script).
      destruct (Z.rem (samples + 1) 10 =? 0); repeat split; lia.
  - cbn [calibration_loop available].
    change (idle_polls (None :: script)) with (S (idle_polls script)).
    destruct (samples <? CALIBRATION_SAMPLES) eqn:Hlt.
    + destruct (IH n sumX sumY sumZ samples Hs H0 Hn)
        as (sums & tr & Heq & Hd & Hp & Hr & Hi).
      rewrite Heq. cbn [prepend]. eexists. eexists. split; [reflexivity|].
      rewrite total_delay_app, !count_app, Hd, Hr.
      change (total_delay [AccelerationAvailable false]) with 0.
      change (count (is_write_of LED_GREEN LOW) [AccelerationAvailable false])
        with 0%nat.
      change (count is_ready_poll [AccelerationAvailable false]) with 0%nat.
      change (count is_idle_poll [AccelerationAvailable false]) with 1%nat.
      repeat split; lia.
    + apply Z.ltb_ge in Hlt. unfold CALIBRATION_SAMPLES in Hlt.
      assert (n = 0%nat) by lia. subst n.
      eexists. exists []. split; [reflexivity|].
      rewrite (Hdone samples) by lia. repeat split. apply Nat.le_0_l.
Qed.

End CalibrationTiming.

(** ** The shape of bootstrap, however it ends *)

Section BootstrapShape.
Import WashSense.

(** [calibrateAccelerometer] around its loop. *)
Lemma calibrate_unfold (script : list (option Sample)) (g : Globals) :
  calibrateAccelerometer script g =
  match calibration_loop script F32.zero F32.zero F32.zero 0 with
  | Returned sums tr =>
      Returned (calibrated sums g)
               (calibration_start ++ tr
                ++ calibration_report (calibrated sums g))
  | Halted tr => Halted (calibration_start ++ tr)
  | Spinning tr => Spinning (calibration_start ++ tr)
  end.
Proof.
  unfold calibrateAccelerometer, bind, emit.
  destruct (calibration_loop script F32.zero F32.zero F32.zero 0)
    as [[[sumX sumY] sumZ] tr | tr | tr]; reflexivity.
Qed.

(** [setup] around [calibrateAccelerometer]. *)
Lemma setup_unfold (b : BootInput) (g : Globals) :
  setup b g =
  if imu_begin b then
    match calibrateAccelerometer (calib_script b) g with
    | Returned gc trc =>
        if ble_begin b
        then Returned gc (boot_calls ++ trc ++ [BleBegin true]
                          ++ advertising_calls ++ initial_writes)
        else Halted (boot_calls ++ trc ++ ble_failure_calls)
    | Halted trc => Halted (boot_calls ++ trc)
    | Spinning trc => Spinning (boot_calls ++ trc)
    end
  else Halted imu_failure_calls.
Proof.
  unfold setup. destruct (imu_begin b); [|reflexivity].
  cbn [negb bind emit ret prepend].
  destruct (calibrateAccelerometer (calib_script b) g) as [gc trc | trc | trc];
    cbn [prepend app bind]; try reflexivity.
  destruct (ble_begin b); cbn [negb bind emit ret prepend app];
    unfold boot_calls, ble_failure_calls; cbn [app];
    rewrite <- ?app_assoc; reflexivity.
Qed.

(** Inside the calibration loop, however it ends: only the sensor, the
    green LED and [delay] are called; the green LED is left off; the loop
    does not halt. *)
Lemma calibration_loop_calls (script : list (option Sample)) :
  forall (sumX sumY sumZ : F32.float) (samples : Z),
    let o := calibration_loop script sumX sumY sumZ samples in
    Forall (fun e => is_calibration_step e = true) (outcome_trace o) /\
    (forall pin held,
        pin <> LED_GREEN -> pin_level pin (outcome_trace o) held = held) /\
    pin_level LED_GREEN (outcome_trace o) (Some HIGH) = Some HIGH /\
    (forall tr, o <> Halted tr).
Proof.
  induction script as [|[s|] script IH]; intros sumX sumY sumZ samples o;
    subst o; cbn [calibration_loop];
    destruct (samples <? CALIBRATION_SAMPLES);
    try (repeat split; [constructor | discriminate]).
  - destruct (IH (F32.add sumX (ax s)) (F32.add sumY (ay s))
                (F32.add sumZ (az s)) (samples + 1)) as (Hall & Hpin & Hg & Hh).
    rewrite outcome_trace_prepend. repeat split.
    + destruct (Z.rem (samples + 1) 10 =? 0);
        repeat (constructor; [reflexivity|]); exact Hall.
    + intros pin held Hne. rewrite pin_level_app, Hpin by exact Hne.
      apply Z.eqb_neq in Hne. rewrite Z.eqb_sym in Hne.
      destruct (Z.rem (samples + 1) 10 =? 0); [|reflexivity].
      cbn -[Z.eqb]. now rewrite Hne.
    + rewrite pin_level_app.
      destruct (Z.rem (samples + 1) 10 =? 0); exact Hg.
    + intros tr.
      destruct (calibration_loop script _ _ _ _) as [r t | t | t];
        cbn [prepend]; try discriminate.
      exfalso. exact (Hh t eq_refl).
  - destruct (IH sumX sumY sumZ samples) as (Hall & Hpin & Hg & Hh).
    rewrite outcome_trace_prepend. repeat split.
    + constructor; [reflexivity | exact Hall].
    + intros pin held Hne. rewrite pin_level_app. now apply Hpin.
    + rewrite pin_level_app. exact Hg.
    + intros tr.
      destruct (calibration_loop script _ _ _ _) as [r t | t | t];
        cbn [prepend]; try discriminate.
      exfalso. exact (Hh t eq_refl).
Qed.

End BootstrapShape.

Section PowerOnCases.
Import WashSense.

(** Every way [setup()] can end. *)
Lemma power_on_cases (b : BootInput) :
  (imu_begin b = false /\ power_on b = (Halt, imu_failure_calls)) \/
  (imu_begin b = true /\
   exists ltr,
     calibration_loop_trace ltr /\
     ((~ enough_samples b /\
       power_on b = (Stalled, boot_calls ++ calibration_start ++ ltr)) \/
      (enough_samples b /\
       exists gc,
         connectionActive gc = false /\ previousMillis gc = 0 /\
         count is_read ltr = 50%nat /\
         power_on b = after_calibration (ble_begin b) ltr gc))).
Proof.
  unfold power_on. rewrite setup_unfold, calibrate_unfold.
  destruct (imu_begin b); [right; split; [reflexivity|] | now left].
  pose proof (calibration_loop_calls (calib_script b)
                F32.zero F32.zero F32.zero 0) as (Hall & Hpin & Hg & Hh).
  destruct (le_lt_dec (Z.to_nat CALIBRATION_SAMPLES)
              (length (available (calib_script b)))) as [Hn|Hn].
  - destruct (calibration_loop_returns (calib_script b)
                (Z.to_nat CALIBRATION_SAMPLES) F32.zero F32.zero F32.zero 0)
      as (tr & Heq & Hread & _); [reflexivity | exact Hn |].
    rewrite Heq in *. cbn [outcome_trace] in *.
    exists tr. split; [repeat split; assumption|].
    right. split; [exact Hn|]. eexists.
    split; [|split; [|split; [exact Hread|]]].
    3: { unfold after_calibration, calibrated_calls.
         destruct (ble_begin b); reflexivity. }
    all: reflexivity.
  - destruct (calibration_loop_spins (calib_script b)
                F32.zero F32.zero F32.zero 0) as (tr & Heq & _).
    { unfold CALIBRATION_SAMPLES in *. lia. }
    rewrite Heq in *. cbn [outcome_trace] in *.
    exists tr. split; [repeat split; assumption|].
    left. split; [|reflexivity].
    unfold enough_samples. lia.
Qed.

End PowerOnCases.

(** X1: a calibration that completes has polled the sensor successfully
    exactly 50 times, pulsed the green LED exactly 5 times and slept exactly
    1050 ms (50 pauses of 20 ms, 5 pulses of 10 ms), however many polls found
    no sample: such polls are not followed by any delay. *)
Theorem calibration_blocks_for_1050_ms
    (script : list (option Sample)) (g : WashSense.Globals) :
  (Z.to_nat WashSense.CALIBRATION_SAMPLES <= length (available script))%nat ->
  exists (g' : WashSense.Globals) (tr : Trace),
    WashSense.calibrateAccelerometer script g = Returned g' tr /\
    total_delay tr = 1050 /\
    count (is_write_of WashSense.LED_GREEN LOW) tr = 5%nat /\
    count is_ready_poll tr = 50%nat /\
    (count is_idle_poll tr <= idle_polls script)%nat.
Proof.
  intros Hn.
  destruct (calibration_loop_timing script (Z.to_nat WashSense.CALIBRATION_SAMPLES)
              F32.zero F32.zero F32.zero 0)
    as (sums & tr & Heq & Hd & Hp & Hr & Hi);
    [reflexivity | lia | exact Hn |].
  rewrite calibrate_unfold, Heq.
  eexists. eexists. split; [reflexivity|].
  rewrite !total_delay_app, !count_app, Hd, Hr.
  change (Z.of_nat (count (is_write_of WashSense.LED_GREEN LOW) tr) = 5) in Hp.
  repeat split.
  - apply Nat2Z.inj. rewrite !Nat2Z.inj_add, Hp. reflexivity.
  - change (count is_idle_poll calibration_start) with 0%nat.
    change (count is_idle_poll (calibration_report (calibrated sums g)))
      with 0%nat.
    lia.
Qed.

Lemma calibration_blocks_for_1050_ms_witness :
  (Z.to_nat WashSense.CALIBRATION_SAMPLES
   <= length (available resting_script))%nat /\
  exists (g' : WashSense.Globals) (tr : Trace),
    WashSense.calibrateAccelerometer resting_script WashSense.initial_globals
    = Returned g' tr /\
    total_delay tr = 1050 /\
    count (is_write_of WashSense.LED_GREEN LOW) tr = 5%nat /\
    count is_ready_poll tr = 50%nat /\
    (count is_idle_poll tr <= idle_polls resting_script)%nat.
Proof.
  assert (H : (Z.to_nat WashSense.CALIBRATION_SAMPLES
               <= length (available resting_script))%nat)
    by (vm_compute; repeat constructor).
  split; [exact H|].
  exact (calibration_blocks_for_1050_ms resting_script
           WashSense.initial_globals H).
Defined.

(** ** Polling the sensor while streaming (X2, X3) *)

Section SensorPolls.
Import WashSense.

Lemma attempt_times_cons (g : Globals) (i : LoopInput) (inputs : list LoopInput) :
  attempt_times g (i :: inputs) =
  (if existsb is_sampling (snd (loop i g)) then [now i] else [])
  ++ attempt_times (fst (loop i g)) inputs.
Proof. simpl. now destruct (loop i g). Qed.

Lemma attempt_times_spaced (inputs : list LoopInput) :
  forall (g : Globals) (tp t0 : Z),
    t0 <= tp ->
    previousMillis g = wrap tp ->
    monotone tp (map now inputs) ->
    spaced interval (t0 :: attempt_times g inputs).
Proof.
  induction inputs as [|i inputs IH]; intros g tp t0 H0 Hprev Hmono;
    [exact I|].
  destruct Hmono as [Hle Hmono]. fold (monotone (now i) (map now inputs)) in Hmono.
  rewrite attempt_times_cons.
  destruct (loop_rate_limiter i g) as [(Hsame & _ & Hsam) | (Hnew & Htest)].
  - rewrite Hsam. simpl app.
    apply (IH _ tp); [assumption | congruence |].
    now apply monotone_weaken with (t' := now i).
  - rewrite Hprev in Htest. apply wrapped_elapsed in Htest; [|assumption].
    destruct (existsb is_sampling (snd (loop i g))).
    + simpl app. apply spaced_cons; [lia|].
      apply (IH _ (now i)); [lia | exact Hnew | assumption].
    + simpl app.
      apply (IH _ (now i)); [lia | exact Hnew | assumption].
Qed.

(** A connected pass, seen from the interval test. *)
Lemma loop_connected_pass (i : LoopInput) (g : Globals) :
  present i = true ->
  if interval <=? wrap (millis (now i) - previousMillis g)
  then existsb is_sampling (snd (loop i g)) = true /\
       previousMillis (fst (loop i g)) = millis (now i) /\
       published (snd (loop i g)) =
       match accel i with
       | Some raw =>
           let d := difference raw (offsets g) in
           [(vibrationX, ax d); (vibrationY, ay d); (vibrationZ, az d);
            (vibrationMag, euclidean_norm d)]
       | None => []
       end
  else existsb is_sampling (snd (loop i g)) = false /\
       previousMillis (fst (loop i g)) = previousMillis g /\
       published (snd (loop i g)) = [].
Proof.
  intros Hp. revert Hp.
  loop_cases i g; intros Hp; try discriminate Hp; repeat split.
Qed.

Lemma wrapped_difference (tp t : Z) :
  wrap (millis t - wrap tp) = (t - tp) mod 2 ^ 32.
Proof. unfold millis, wrap. now rewrite <- Zminus_mod. Qed.

End SensorPolls.

(** X2: while streaming, two consecutive passes that poll the sensor read
    the clock at least one interval (100 ms) apart, whether or not the
    earlier poll found a sample: the timestamp is reset by every pass whose
    interval test succeeds, so an unready sensor is not polled again at once. *)
Theorem sensor_polls_an_interval_apart
    (g : WashSense.Globals) (inputs : list LoopInput) (t0 : Z) :
  WashSense.previousMillis g = wrap t0 ->
  monotone t0 (map now inputs) ->
  spaced WashSense.interval (attempt_times g inputs).
Proof.
  intros Hprev Hmono.
  apply spaced_tail with (a := t0).
  now apply attempt_times_spaced with (tp := t0); [lia | |].
Qed.

(** With a peer attached and no sample ever ready, of twelve passes 20 ms
    apart only three poll the sensor. *)
Example dry_passes_attempt_times :
  attempt_times WashSense.initial_globals dry_passes = [100; 200; 300].
Proof. vm_compute. reflexivity. Qed.

Lemma sensor_polls_an_interval_apart_witness :
  WashSense.previousMillis WashSense.initial_globals = wrap 0 /\
  monotone 0 (map now dry_passes) /\
  spaced WashSense.interval (attempt_times WashSense.initial_globals dry_passes).
Proof.
  assert (Hmono : monotone 0 (map now dry_passes)) by (simpl; lia).
  split; [reflexivity|]. split; [exact Hmono|].
  exact (sensor_polls_an_interval_apart WashSense.initial_globals dry_passes 0
           eq_refl Hmono).
Defined.

(** X3: with a peer attached and the timestamp taken at time [tp], a pass at
    time [now] polls the sensor exactly when [(now - tp) mod 2^32] has reached
    the interval.  It then resets the timestamp to [now], and publishes the
    four values of the sample if one is ready, nothing otherwise; a pass that
    does not poll leaves the timestamp alone and publishes nothing.  In
    particular a pass between 100 ms and 2^32 ms after [tp] always polls, and
    one that comes a whole number of wraps plus less than 100 ms after [tp]
    does not. *)
Theorem connected_pass_polls_when_interval_elapsed
    (i : LoopInput) (g : WashSense.Globals) (tp : Z) :
  present i = true ->
  WashSense.previousMillis g = wrap tp ->
  (existsb is_sampling (snd (WashSense.loop i g)) = true <->
   WashSense.interval <= (now i - tp) mod 2 ^ 32) /\
  (WashSense.interval <= (now i - tp) mod 2 ^ 32 ->
   WashSense.previousMillis (fst (WashSense.loop i g)) = wrap (now i) /\
   published (snd (WashSense.loop i g)) =
   match accel i with
   | Some raw =>
       let d := difference raw (WashSense.offsets g) in
       [(vibrationX, ax d); (vibrationY, ay d); (vibrationZ, az d);
        (vibrationMag, euclidean_norm d)]
   | None => []
   end) /\
  ((now i - tp) mod 2 ^ 32 < WashSense.interval ->
   WashSense.previousMillis (fst (WashSense.loop i g)) = wrap tp /\
   published (snd (WashSense.loop i g)) = []) /\
  (tp + WashSense.interval <= now i < tp + 2 ^ 32 ->
   existsb is_sampling (snd (WashSense.loop i g)) = true).
Proof.
  intros Hp Hprev.
  pose proof (loop_connected_pass i g Hp) as H.
  rewrite Hprev, wrapped_difference in H.
  destruct (WashSense.interval <=? (now i - tp) mod 2 ^ 32) eqn:E;
    [apply Z.leb_le in E | apply Z.leb_gt in E];
    destruct H as (Hs & Ht & Hpub).
  - split; [tauto|]. split; [auto|]. split; [lia|]. auto.
  - split; [split; [rewrite Hs; discriminate | lia]|].
    split; [lia|]. split; [intros _; split; [congruence | exact Hpub]|].
    intros Hwin. exfalso.
    change WashSense.interval with 100 in *.
    change (2 ^ 32) with 4294967296 in *.
    rewrite Z.mod_small in E by lia. lia.
Qed.

Lemma connected_pass_polls_when_interval_elapsed_witness :
  present (peer_input (2 ^ 32 + 60)) = true /\
  WashSense.previousMillis
    (WashSense.set_previousMillis (2 ^ 32 - 50) connected_globals)
  = wrap (2 ^ 32 - 50) /\
  WashSense.interval <= (now (peer_input (2 ^ 32 + 60)) - (2 ^ 32 - 50)) mod 2 ^ 32 /\
  published
    (snd (WashSense.loop (peer_input (2 ^ 32 + 60))
            (WashSense.set_previousMillis (2 ^ 32 - 50) connected_globals)))
  = all_zero.
Proof.
  assert (H : WashSense.interval
              <= (now (peer_input (2 ^ 32 + 60)) - (2 ^ 32 - 50)) mod 2 ^ 32)
    by (vm_compute; discriminate).
  split; [reflexivity|]. split; [reflexivity|]. split; [exact H|].
  exact (proj2 (proj1 (proj2 (connected_pass_polls_when_interval_elapsed
                                (peer_input (2 ^ 32 + 60))
                                (WashSense.set_previousMillis (2 ^ 32 - 50)
                                   connected_globals)
                                (2 ^ 32 - 50) eq_refl eq_refl)) H)).
Defined.

(** ** One sample, four writes (X4) *)

Section Batches.
Import WashSense.

Lemma loop_batch (i : LoopInput) (g : Globals) :
  map fst (published (snd (loop i g))) =
    (if existsb is_publish (snd (loop i g)) then batch_attrs else []) /\
  count is_read (snd (loop i g)) =
    (if existsb is_publish (snd (loop i g)) then 1 else 0)%nat /\
  count (is_write_of LED_GREEN LOW) (snd (loop i g)) =
    (if existsb is_publish (snd (loop i g)) then 1 else 0)%nat.
Proof. loop_cases i g; repeat split. Qed.

Lemma loops_batches (inputs : list LoopInput) :
  forall g : Globals,
    map fst (published (snd (loops g inputs))) =
      concat (repeat batch_attrs (length (publish_times g inputs))) /\
    count is_read (snd (loops g inputs)) = length (publish_times g inputs) /\
    count (is_write_of LED_GREEN LOW) (snd (loops g inputs)) =
      length (publish_times g inputs).
Proof.
  induction inputs as [|i inputs IH]; intros g; [repeat split|].
  rewrite loops_cons, publish_times_cons. cbn [snd].
  rewrite published_app, map_app, !count_app, length_app.
  destruct (IH (fst (loop i g))) as (-> & -> & ->).
  destruct (loop_batch i g) as (-> & -> & ->).
  destruct (existsb is_publish (snd (loop i g))); repeat split.
Qed.

End Batches.

(** X4: over any passes through [loop()], the characteristics are written in
    whole groups X, Y, Z, magnitude, one group per publishing pass, and there
    are as many samples read from the sensor, and as many green pulses, as
    groups: every sample read is sent in full, and nothing is sent without a
    fresh sample. *)
Theorem samples_are_sent_in_fours
    (g : WashSense.Globals) (inputs : list LoopInput) :
  map fst (published (snd (WashSense.loops g inputs))) =
    concat (repeat batch_attrs (length (publish_times g inputs))) /\
  count is_read (snd (WashSense.loops g inputs))
  = length (publish_times g inputs) /\
  count (is_write_of WashSense.LED_GREEN LOW) (snd (WashSense.loops g inputs))
  = length (publish_times g inputs).
Proof. apply loops_batches. Qed.

(** ** The indicators (X5) *)

Section Indicators.
Import WashSense.

Lemma loop_leds (i : LoopInput) (g : Globals) :
  (forall held, pin_level LED_RED (snd (loop i g)) held = held) /\
  pin_level LED_GREEN (snd (loop i g)) (Some HIGH) = Some HIGH /\
  pin_level LED_BLUE (snd (loop i g)) (Some (led (connectionActive g)))
  = Some (led (connectionActive (fst (loop i g)))).
Proof. loop_cases i g; repeat split. Qed.

Lemma loops_leds (inputs : list LoopInput) :
  forall g : Globals,
    (forall held, pin_level LED_RED (snd (loops g inputs)) held = held) /\
    pin_level LED_GREEN (snd (loops g inputs)) (Some HIGH) = Some HIGH /\
    pin_level LED_BLUE (snd (loops g inputs)) (Some (led (connectionActive g)))
    = Some (led (connectionActive (fst (loops g inputs)))).
Proof.
  induction inputs as [|i inputs IH]; intros g; [repeat split|].
  rewrite loops_cons. cbn [fst snd].
  destruct (loop_leds i g) as (Hr & Hg & Hb).
  destruct (IH (fst (loop i g))) as (Hr' & Hg' & Hb').
  repeat split.
  - intros held. now rewrite pin_level_app, Hr, Hr'.
  - now rewrite pin_level_app, Hg, Hg'.
  - now rewrite pin_level_app, Hb, Hb'.
Qed.

(** The pins at the end of calibration: all three LEDs off. *)
Lemma calibrated_calls_leds (ltr : Trace) (gc : Globals) :
  calibration_loop_trace ltr ->
  leds (calibrated_calls ltr gc) = (Some HIGH, Some HIGH, Some HIGH).
Proof.
  intros (_ & Hpin & Hg).
  unfold leds, calibrated_calls.
  rewrite !pin_level_app.
  cbn [boot_calls calibration_start calibration_report pin_level].
  cbn -[pin_level].
  rewrite (Hpin LED_RED) by discriminate.
  rewrite Hg. reflexivity.
Qed.

End Indicators.

Lemma leds_app (t1 t2 : Trace) :
  leds (t1 ++ t2) =
  let '(r, g, b) := leds t1 in
  (pin_level WashSense.LED_RED t2 r, pin_level WashSense.LED_GREEN t2 g,
   pin_level WashSense.LED_BLUE t2 b).
Proof. unfold leds. now rewrite !pin_level_app. Qed.

(** A boot in which everything starts reaches the loop. *)
Lemma power_on_streams (b : WashSense.BootInput) :
  WashSense.imu_begin b = true ->
  WashSense.ble_begin b = true ->
  enough_samples b ->
  exists (g : WashSense.Globals) (tr : Trace),
    WashSense.power_on b = (WashSense.Streaming g, tr).
Proof.
  intros Himu Hble Hn.
  destruct (setup_after_calibration b WashSense.initial_globals Himu Hn)
    as (gc & trc & _ & _ & _ & _ & _ & _ & _ & Hsetup).
  rewrite Hble in Hsetup.
  exists gc. eexists. unfold WashSense.power_on. rewrite Hsetup. reflexivity.
Qed.

Lemma resting_boot_has_enough_samples : enough_samples resting_boot.
Proof. unfold enough_samples. vm_compute. repeat constructor. Qed.

(** What a boot that reaches the loop has done. *)
Lemma streaming_trace (b : WashSense.BootInput) (g : WashSense.Globals)
    (tr : Trace) :
  WashSense.power_on b = (WashSense.Streaming g, tr) ->
  exists ltr,
    calibration_loop_trace ltr /\
    WashSense.connectionActive g = false /\
    WashSense.previousMillis g = 0 /\
    count is_read ltr = 50%nat /\
    tr = calibrated_calls ltr g ++ [BleBegin true]
         ++ advertising_calls ++ initial_writes.
Proof.
  intros Hon.
  destruct (power_on_cases b)
    as [(_ & H) | (_ & ltr & Hltr & [(_ & H) | (_ & gc & Hc & Hp & Hr & H)])];
    rewrite H in Hon; try discriminate Hon.
  unfold after_calibration in Hon.
  destruct (WashSense.ble_begin b); [|discriminate Hon].
  pose proof (f_equal fst Hon) as Hg. pose proof (f_equal snd Hon) as Ht.
  cbn [fst snd] in Hg, Ht. injection Hg as <-. subst tr.
  exists ltr. repeat split; assumption || apply Hltr.
Qed.

(** X5: once the device streams, at the end of [setup()] and of every pass
    through [loop()] the red and green LEDs are off and the blue LED is on
    exactly when the connection flag is set (the LEDs are active low). *)
Theorem leds_mirror_the_state
    (b : WashSense.BootInput) (g : WashSense.Globals) (tr : Trace)
    (inputs : list LoopInput) :
  WashSense.power_on b = (WashSense.Streaming g, tr) ->
  leds (tr ++ snd (WashSense.loops g inputs)) =
  (Some HIGH, Some HIGH,
   Some (led (WashSense.connectionActive (fst (WashSense.loops g inputs))))).
Proof.
  intros Hon.
  destruct (streaming_trace b g tr Hon) as (ltr & Hltr & Hc & _ & _ & ->).
  rewrite leds_app, leds_app, (calibrated_calls_leds ltr g Hltr).
  destruct (loops_leds inputs g) as (Lr & Lg & Lb).
  rewrite Hc in Lb. cbn [led] in Lb.
  cbn [pin_level advertising_calls initial_writes app].
  rewrite Lr, Lg, Lb. reflexivity.
Qed.

Lemma leds_mirror_the_state_witness :
  exists (g : WashSense.Globals) (tr : Trace),
    WashSense.power_on resting_boot = (WashSense.Streaming g, tr) /\
    leds (tr ++ snd (WashSense.loops g rapid_passes)) =
    (Some HIGH, Some HIGH,
     Some (led (WashSense.connectionActive (fst (WashSense.loops g rapid_passes))))).
Proof.
  destruct (power_on_streams resting_boot eq_refl eq_refl
              resting_boot_has_enough_samples) as (g & tr & Hon).
  exists g, tr. split; [exact Hon|].
  exact (leds_mirror_the_state resting_boot g tr rapid_passes Hon).
Defined.

(** ** Advertising (X6) and a starved calibration (X7) *)

Section Advertising.
Import WashSense.

Lemma calibration_loop_trace_count (p : Event -> bool) (ltr : Trace) :
  (forall e, is_calibration_step e = true -> p e = false) ->
  calibration_loop_trace ltr -> count p ltr = 0%nat.
Proof.
  intros Hp (Hall & _). now apply count_disjoint with (q := is_calibration_step).
Qed.

(** What [setup()] has called of the radio, by the way it ended. *)
Lemma power_on_radio_calls (b : BootInput) :
  count is_advertise (snd (power_on b)) =
    match fst (power_on b) with Streaming _ => 1%nat | _ => 0%nat end /\
  count is_ble_begin (snd (power_on b)) =
    match fst (power_on b) with
    | Streaming _ => 1%nat
    | Halt => if imu_begin b then 1%nat else 0%nat
    | Stalled => 0%nat
    end /\
  count is_publish (snd (power_on b)) =
    match fst (power_on b) with Streaming _ => 4%nat | _ => 0%nat end /\
  count is_serial_ready (snd (power_on b)) = 0%nat.
Proof.
  destruct (power_on_cases b)
    as [(Himu & H) | (Himu & ltr & Hltr &
                      [(_ & H) | (_ & gc & _ & _ & _ & H)])];
    rewrite H, ?Himu.
  - repeat split.
  - cbn [fst snd]. rewrite !count_app.
    rewrite !(calibration_loop_trace_count _ ltr) by (assumption || now intros []).
    repeat split.
  - unfold after_calibration, calibrated_calls.
    destruct (ble_begin b); cbn [fst snd]; rewrite !count_app;
      rewrite !(calibration_loop_trace_count _ ltr)
        by (assumption || now intros []);
      repeat split.
Qed.

Lemma tick_radio_calls (m : Mode) (i : LoopInput) :
  count is_advertise (snd (tick m i)) = 0%nat /\
  count is_ble_begin (snd (tick m i)) = 0%nat.
Proof.
  destruct m as [g| |]; [|split; reflexivity ..].
  cbn [tick]. destruct (loop i g) as [g' tr] eqn:E.
  change tr with (snd (g', tr)). rewrite <- E. clear E.
  loop_cases i g; split; reflexivity.
Qed.

Lemma run_cons (m : Mode) (i : LoopInput) (inputs : list LoopInput) :
  snd (run m (i :: inputs)) =
  snd (tick m i) ++ snd (run (fst (tick m i)) inputs).
Proof.
  simpl. destruct (tick m i) as [m1 t1]. simpl.
  now destruct (run m1 inputs).
Qed.

Lemma run_radio_calls (inputs : list LoopInput) :
  forall m : Mode,
    count is_advertise (snd (run m inputs)) = 0%nat /\
    count is_ble_begin (snd (run m inputs)) = 0%nat.
Proof.
  induction inputs as [|i inputs IH]; intros m; [split; reflexivity|].
  rewrite run_cons, !count_app.
  destruct (tick_radio_calls m i) as [-> ->].
  destruct (IH (fst (tick m i))) as [-> ->]. split; reflexivity.
Qed.

End Advertising.

(** X6: [setup()] starts advertising exactly once when it returns and not at
    all when it halts or stays in calibration; it calls [BLE.begin()] at most
    once, and never when the sensor failed or calibration did not complete;
    whatever state the device is in afterwards, no later turn starts the
    radio or advertising again. *)
Theorem advertises_only_after_full_bootstrap :
  (forall b : WashSense.BootInput,
      count is_advertise (snd (WashSense.power_on b)) =
        match fst (WashSense.power_on b) with
        | WashSense.Streaming _ => 1%nat
        | _ => 0%nat
        end /\
      count is_ble_begin (snd (WashSense.power_on b)) =
        match fst (WashSense.power_on b) with
        | WashSense.Streaming _ => 1%nat
        | WashSense.Halt => if WashSense.imu_begin b then 1%nat else 0%nat
        | WashSense.Stalled => 0%nat
        end) /\
  (forall (m : WashSense.Mode) (inputs : list LoopInput),
      count is_advertise (snd (WashSense.run m inputs)) = 0%nat /\
      count is_ble_begin (snd (WashSense.run m inputs)) = 0%nat).
Proof.
  split.
  - intros b. destruct (power_on_radio_calls b) as (H1 & H2 & _).
    split; assumption.
  - intros m inputs. apply run_radio_calls.
Qed.

(** X7: with a working sensor that never delivers its 50 samples, [setup()]
    does not return: the radio is never started, nothing is advertised or
    published, and the blue LED, switched on when calibration began, stays
    on. *)
Theorem starved_calibration_never_starts_the_radio (b : WashSense.BootInput) :
  WashSense.imu_begin b = true ->
  ~ enough_samples b ->
  exists tr : Trace,
    WashSense.power_on b = (WashSense.Stalled, tr) /\
    count is_ble_begin tr = 0%nat /\
    count is_advertise tr = 0%nat /\
    count is_publish tr = 0%nat /\
    count is_calibration_log tr = 0%nat /\
    leds tr = (Some HIGH, Some HIGH, Some LOW).
Proof.
  intros Himu Hn.
  destruct (power_on_cases b)
    as [(Himu' & _) | (_ & ltr & Hltr & [(_ & H) | (Hn' & _)])];
    [congruence | | contradiction].
  pose proof (power_on_radio_calls b) as (Ha & Hb & Hp & _).
  rewrite H in Ha, Hb, Hp. cbn [fst snd] in Ha, Hb, Hp.
  eexists. split; [exact H|].
  split; [exact Hb|]. split; [exact Ha|]. split; [exact Hp|]. split.
  - rewrite !count_app.
    rewrite (calibration_loop_trace_count _ ltr) by (assumption || now intros []).
    reflexivity.
  - destruct Hltr as (_ & Hpin & Hg).
    unfold leds. rewrite !pin_level_app.
    cbn [boot_calls calibration_start pin_level]. cbn -[pin_level].
    rewrite (Hpin WashSense.LED_RED), (Hpin WashSense.LED_BLUE) by discriminate.
    rewrite Hg. reflexivity.
Qed.

Lemma starved_calibration_never_starts_the_radio_witness :
  WashSense.imu_begin starved_boot = true /\
  ~ enough_samples starved_boot /\
  exists tr : Trace,
    WashSense.power_on starved_boot = (WashSense.Stalled, tr) /\
    count is_ble_begin tr = 0%nat /\
    count is_advertise tr = 0%nat /\
    count is_publish tr = 0%nat /\
    count is_calibration_log tr = 0%nat /\
    leds tr = (Some HIGH, Some HIGH, Some LOW).
Proof.
  assert (H : ~ enough_samples starved_boot)
    by (unfold enough_samples; vm_compute; intros H;
        repeat (apply le_S_n in H); inversion H).
  split; [reflexivity|]. split; [exact H|].
  exact (starved_calibration_never_starts_the_radio starved_boot eq_refl H).
Defined.

(** ** The second sketch: waiting for Serial (X8), the characteristics (X9) *)

Section Part000Bootstrap.
Import Part000.

(** The wait for the Serial port only tests the port. *)
Lemma wait_serial_calls (script : list bool) :
  Forall (fun e => is_serial_ready e = true) (outcome_trace (wait_serial script)).
Proof.
  induction script as [|[|] script IH]; cbn [wait_serial].
  - constructor.
  - repeat constructor.
  - rewrite outcome_trace_prepend. constructor; [reflexivity | exact IH].
Qed.

(** A port that never opens: the wait never ends. *)
Lemma wait_serial_spins (script : list bool) :
  ~ In true script ->
  wait_serial script = Spinning (repeat (SerialReady false) (length script)).
Proof.
  induction script as [|[|] script IH]; intros Hin; [reflexivity | |].
  - exfalso. apply Hin. now left.
  - cbn [wait_serial]. rewrite IH; [reflexivity|].
    intros H. apply Hin. now right.
Qed.

Lemma serial_calls_count (p : Event -> bool) (tr : Trace) :
  (forall e, is_serial_ready e = true -> p e = false) ->
  Forall (fun e => is_serial_ready e = true) tr -> count p tr = 0%nat.
Proof. intros Hp Hall. now apply count_disjoint with (q := is_serial_ready). Qed.

(** [setup()] writes no characteristic, however it ends. *)
Lemma part000_setup_publishes_nothing (b : BootInput) :
  count is_publish (snd (power_on b)) = 0%nat.
Proof.
  pose proof (wait_serial_calls (serial_script b)) as Hall.
  unfold power_on, setup.
  destruct (wait_serial (serial_script b)) as [[] trs | trs | trs];
    cbn [outcome_trace] in Hall;
    pose proof (serial_calls_count is_publish trs
                  ltac:(now intros []) Hall) as Hz;
    cbn [bind emit prepend ret app];
    [destruct (imu_begin b); [destruct (ble_begin b)|] | |];
    cbn [negb bind emit prepend ret app showError snd];
    rewrite ?count_cons, ?count_app, ?count_cons, Hz; reflexivity.
Qed.

End Part000Bootstrap.

(** X8: the second sketch waits for the Serial port before anything else:
    if the port never opens, [setup()] never gets past [while (!Serial);],
    having called nothing but [Serial.begin] and the test of the port (no
    pin is configured, neither the sensor nor the radio is started).  The
    main sketch never tests the port. *)
Theorem part000_waits_for_serial :
  (forall b : Part000.BootInput,
      ~ In true (Part000.serial_script b) ->
      Part000.power_on b =
      (Part000.Stalled,
       SerialBegin 115200
       :: repeat (SerialReady false) (length (Part000.serial_script b)))) /\
  (forall b : WashSense.BootInput,
      count is_serial_ready (snd (WashSense.power_on b)) = 0%nat).
Proof.
  split.
  - intros b Hin. unfold Part000.power_on, Part000.setup.
    rewrite (wait_serial_spins _ Hin). reflexivity.
  - intros b. apply power_on_radio_calls.
Qed.

Lemma part000_waits_for_serial_witness :
  ~ In true (Part000.serial_script part000_headless_boot) /\
  Part000.power_on part000_headless_boot =
  (Part000.Stalled,
   SerialBegin 115200
   :: repeat (SerialReady false)
        (length (Part000.serial_script part000_headless_boot))).
Proof.
  assert (H : ~ In true (Part000.serial_script part000_headless_boot))
    by (simpl; intros [H | [H | [H | H]]]; discriminate || exact H).
  split; [exact H|].
  exact (proj1 part000_waits_for_serial part000_headless_boot H).
Defined.

Section Part000Batches.
Import Part000.

Lemma part000_step_batches (c : Control) (i : LoopInput) :
  map fst (published (snd (step c i))) =
    concat (repeat batch_attrs (count is_read (snd (step c i)))) /\
  count is_publish (snd (step c i)) =
    (if in_while c && present i
     then match accel i with Some _ => 4 | None => 0 end
     else 0)%nat.
Proof. destruct c, i as [[a|] t [s|]]; split; reflexivity. Qed.

Lemma part000_run_batches (inputs : list LoopInput) :
  forall c : Control,
    map fst (published (snd (run (Running c) inputs))) =
    concat (repeat batch_attrs (count is_read (snd (run (Running c) inputs)))).
Proof.
  induction inputs as [|i inputs IH]; intros c; [reflexivity|].
  rewrite part000_run_cons, published_app, map_app, count_app.
  rewrite repeat_app, concat_app, <- IH.
  now rewrite (proj1 (part000_step_batches c i)).
Qed.

Lemma part000_run_unread (inputs : list LoopInput) :
  forall c : Control,
    count is_read (snd (run (Running c) inputs)) = 0%nat ->
    count is_publish (snd (run (Running c) inputs)) = 0%nat.
Proof.
  intros c H.
  pose proof (part000_run_batches inputs c) as Hb. rewrite H in Hb.
  cbn [repeat concat] in Hb.
  apply map_eq_nil in Hb.
  remember (snd (run (Running c) inputs)) as tr eqn:E. clear E H.
  induction tr as [|e tr IH]; [reflexivity|].
  rewrite count_cons.
  destruct e; simpl in *; try (apply IH; exact Hb). discriminate Hb.
Qed.

End Part000Batches.

(** X9: the second sketch never gives its characteristics an initial value:
    [setup()] writes none of them, however it ends; a step writes them only
    inside the connected loop and only when a sample is ready, all four in
    the order X, Y, Z, magnitude, once per sample read; so until the first
    sample is read each characteristic holds whatever it held before. *)
Theorem part000_characteristics_start_unwritten :
  (forall b : Part000.BootInput,
      count is_publish (snd (Part000.power_on b)) = 0%nat) /\
  (forall (c : Part000.Control) (i : LoopInput),
      count is_publish (snd (Part000.step c i)) =
      (if in_while c && present i
       then match accel i with Some _ => 4 | None => 0 end
       else 0)%nat) /\
  (forall (c : Part000.Control) (inputs : list LoopInput),
      map fst (published (snd (Part000.run (Part000.Running c) inputs))) =
      concat (repeat batch_attrs
                (count is_read (snd (Part000.run (Part000.Running c) inputs))))) /\
  (forall (b : Part000.BootInput) (c : Part000.Control)
          (inputs : list LoopInput) (a : Attr) (held : option F32.float),
      count is_read (snd (Part000.run (Part000.Running c) inputs)) = 0%nat ->
      attribute a
        (snd (Part000.power_on b)
         ++ snd (Part000.run (Part000.Running c) inputs)) held
      = held).
Proof.
  split; [exact part000_setup_publishes_nothing|].
  split; [intros c i; apply part000_step_batches|].
  split; [intros c inputs; apply part000_run_batches|].
  intros b c inputs a held H.
  rewrite attribute_app.
  rewrite (attribute_unpublished a _ (part000_setup_publishes_nothing b)).
  apply attribute_unpublished. now apply part000_run_unread.
Qed.

Lemma part000_characteristics_start_unwritten_witness :
  count is_read
    (snd (Part000.run (Part000.Running Part000.AtLoop) five_polls)) = 0%nat /\
  attribute vibrationMag
    (snd (Part000.power_on part000_ready_boot)
     ++ snd (Part000.run (Part000.Running Part000.AtLoop) five_polls)) None
  = None.
Proof.
  split; [reflexivity|].
  exact (proj2 (proj2 (proj2 part000_characteristics_start_unwritten))
           part000_ready_boot Part000.AtLoop five_polls vibrationMag None
           eq_refl).
Defined.

(** ** Floating point: signs and NaN (X10, X11, X12) *)

(** *** Rounding never invents a NaN *)

Lemma shr_1_nonneg (mrs : shr_record) :
  0 <= shr_m mrs -> 0 <= shr_m (shr_1 mrs).
Proof.
  destruct mrs as [m r s]. destruct m as [|p|p]; cbn [shr_m]; intros H.
  - simpl. lia.
  - destruct p; simpl; lia.
  - lia.
Qed.

Lemma iter_pos_nonneg (p : positive) :
  forall mrs : shr_record,
    0 <= shr_m mrs -> 0 <= shr_m (iter_pos shr_1 p mrs).
Proof.
  induction p as [p IH | p IH |]; intros mrs H; cbn [iter_pos].
  - apply IH, IH, shr_1_nonneg, H.
  - apply IH, IH, H.
  - apply shr_1_nonneg, H.
Qed.

Lemma shr_nonneg (mrs : shr_record) (e n : Z) :
  0 <= shr_m mrs -> 0 <= shr_m (fst (shr mrs e n)).
Proof.
  intros H. destruct n as [|p|p]; cbn [shr fst]; try exact H.
  apply iter_pos_nonneg, H.
Qed.

Lemma shr_fexp_nonneg (prec emax m e : Z) (l : location) :
  0 <= m -> 0 <= shr_m (fst (shr_fexp prec emax m e l)).
Proof.
  intros H. unfold shr_fexp. apply shr_nonneg.
  destruct l as [|[]]; exact H.
Qed.

Lemma round_nearest_even_nonneg (m : Z) (l : location) :
  0 <= m -> 0 <= round_nearest_even m l.
Proof.
  intros H. destruct l as [|[]]; cbn [round_nearest_even]; try exact H.
  - destruct (Z.even m); lia.
  - lia.
Qed.

(** The result of rounding a non-negative mantissa with sign [sx] is a zero,
    a finite number or an infinity of that sign. *)
Lemma binary_round_aux_signed (prec emax : Z) (sx : bool) (mx ex : Z)
    (lx : location) :
  0 <= mx ->
  let r := binary_round_aux prec emax sx mx ex lx in
  r = S754_zero sx \/ r = S754_infinity sx \/
  exists m e, r = S754_finite sx m e.
Proof.
  intros H. unfold binary_round_aux.
  pose proof (shr_fexp_nonneg prec emax mx ex lx H) as H1.
  destruct (shr_fexp prec emax mx ex lx) as [mrs' e']. cbn [fst] in H1.
  pose proof (shr_fexp_nonneg prec emax
                (round_nearest_even (shr_m mrs') (loc_of_shr_record mrs'))
                e' loc_Exact
                (round_nearest_even_nonneg _ _ H1)) as H2.
  destruct (shr_fexp prec emax _ e' loc_Exact) as [mrs'' e'']. cbn [fst] in H2.
  destruct (shr_m mrs'') as [|m|m]; [now left | | lia].
  destruct (e'' <=? emax - prec); [right; right; eauto | right; now left].
Qed.

Lemma binary_round_signed (prec emax : Z) (sx : bool) (mx : positive) (ex : Z) :
  let r := binary_round prec emax sx mx ex in
  r = S754_zero sx \/ r = S754_infinity sx \/
  exists m e, r = S754_finite sx m e.
Proof.
  unfold binary_round.
  destruct (shl_align mx ex _) as [mz ez].
  apply binary_round_aux_signed. lia.
Qed.

(** *** Classes of floats *)

Lemma signed_is_number (sx : bool) (r : F32.float) :
  r = S754_zero sx \/ r = S754_infinity sx \/
  (exists m e, r = S754_finite sx m e) ->
  is_number r.
Proof. intros [-> | [-> | (m & e & ->)]]; reflexivity. Qed.

Lemma signed_nonneg (r : F32.float) :
  r = S754_zero false \/ r = S754_infinity false \/
  (exists m e, r = S754_finite false m e) ->
  nonneg r = true.
Proof. intros [-> | [-> | (m & e & ->)]]; reflexivity. Qed.

Lemma binary_normalize_number (prec emax m e : Z) (szero : bool) :
  is_number (binary_normalize prec emax m e szero).
Proof.
  destruct m as [|p|p]; cbn [binary_normalize]; [reflexivity | |];
    eapply signed_is_number, binary_round_signed.
Qed.

Lemma nonneg_is_number (x : F32.float) : nonneg x = true -> is_number x.
Proof. destruct x as [s|[|]| |[|] m e]; now intros H. Qed.

Lemma nonneg_leb_zero (x : F32.float) :
  nonneg x = true -> F32.leb F32.zero x = true.
Proof. destruct x as [s|[|]| |[|] m e]; now intros H. Qed.

Lemma finite_is_number (x : F32.float) : F32.is_finite x = true -> is_number x.
Proof. destruct x as [s|s| |s m e]; now intros H. Qed.

(** *** The operations of the sketch *)

Lemma mul_cond_opp (b : bool) (x : F32.float) :
  F32.mul (cond_opp b x) (cond_opp b x) = F32.mul x x.
Proof.
  destruct b; [|reflexivity].
  destruct x as [[|]|[|]| |[|] m e]; reflexivity.
Qed.

Lemma mul_self_nonneg (x : F32.float) :
  is_number x -> nonneg (F32.mul x x) = true.
Proof.
  destruct x as [[|]|[|]| |s m e]; try reflexivity; [discriminate|].
  intros _. unfold F32.mul, SFmul. rewrite xorb_nilpotent.
  apply signed_nonneg, binary_round_aux_signed. lia.
Qed.

Lemma add_nonneg (x y : F32.float) :
  nonneg x = true -> nonneg y = true -> nonneg (F32.add x y) = true.
Proof.
  destruct x as [[|]|[|]| |[|] mx ex]; try discriminate;
    destruct y as [[|]|[|]| |[|] my ey]; try discriminate;
    intros _ _; try reflexivity.
  unfold F32.add, SFadd. cbn [cond_Zopp Z.add binary_normalize].
  apply signed_nonneg, binary_round_signed.
Qed.

Lemma sqrt_of_nonneg (x : F32.float) :
  nonneg x = true -> nonneg (F32.sqrt x) = true.
Proof.
  destruct x as [[|]|[|]| |[|] m e]; try discriminate; intros _;
    try reflexivity.
  unfold F32.sqrt, SFsqrt, SFsqrt_core_binary.
  match goal with
  | |- context [Z.sqrtrem ?a] =>
      pose proof (Z.sqrt_nonneg a) as Hq;
      rewrite <- Z.sqrtrem_sqrt in Hq;
      destruct (Z.sqrtrem a) as [q r]
  end.
  cbn [fst] in Hq.
  apply signed_nonneg, binary_round_aux_signed, Hq.
Qed.

Lemma sub_finite_number (x y : F32.float) :
  F32.is_finite x = true -> F32.is_finite y = true ->
  is_number (F32.sub x y).
Proof.
  destruct x as [[|]|sx| |sx mx ex]; try discriminate;
    destruct y as [[|]|sy| |sy my ey]; try discriminate;
    intros _ _; try reflexivity.
  apply binary_normalize_number.
Qed.

Lemma add_finite_number (x y : F32.float) :
  is_number x -> F32.is_finite y = true -> is_number (F32.add x y).
Proof.
  destruct x as [[|]|sx| |sx mx ex]; try discriminate;
    destruct y as [[|]|sy| |sy my ey]; try discriminate;
    intros _ _; try reflexivity.
  apply binary_normalize_number.
Qed.

Lemma div_by_finite_number (x : F32.float) (sy : bool) (my : positive) (ey : Z) :
  is_number x -> is_number (F32.div x (S754_finite sy my ey)).
Proof.
  destruct x as [sx|sx| |sx mx ex]; try discriminate; intros _;
    try reflexivity.
  unfold F32.div, SFdiv, SFdiv_core_binary.
  match goal with
  | |- context [Z.div_eucl ?a ?b] =>
      assert (Hq : 0 <= fst (Z.div_eucl a b));
      [ change (fst (Z.div_eucl a b)) with (a / b); apply Z.div_pos; [|lia]
      | destruct (Z.div_eucl a b) as [q r] ]
  end.
  - match goal with
    | |- 0 <= match ?s with _ => _ end =>
        destruct s; [lia | apply Z.shiftl_nonneg; lia | lia]
    end.
  - cbn [fst] in Hq.
    eapply signed_is_number, binary_round_aux_signed, Hq.
Qed.

Lemma of_double_number (d : spec_float) :
  is_number d -> is_number (F32.of_double d).
Proof.
  destruct d as [s|s| |s m e]; try discriminate; intros _; try reflexivity.
  eapply signed_is_number, binary_round_signed.
Qed.

Lemma minus_gravity_number (v : F32.float) :
  is_number v -> is_number (minus_gravity v).
Proof.
  intros H. unfold minus_gravity. apply of_double_number.
  destruct v as [s|s| |s m e]; try discriminate; try reflexivity.
  apply binary_normalize_number.
Qed.

Lemma sub_number (x y : F32.float) :
  F32.is_finite x = true -> is_number y -> is_number (F32.sub x y).
Proof.
  destruct x as [[|]|sx| |sx mx ex]; try discriminate;
    destruct y as [[|]|sy| |sy my ey]; try discriminate;
    intros _ _; try reflexivity.
  apply binary_normalize_number.
Qed.

Lemma fold_add_number (xs : list F32.float) :
  Forall (fun x => F32.is_finite x = true) xs ->
  forall acc, is_number acc -> is_number (fold_left F32.add xs acc).
Proof.
  induction 1 as [|x xs Hx _ IH]; intros acc Hacc; [exact Hacc|].
  cbn [fold_left]. apply IH, add_finite_number; assumption.
Qed.

Lemma mean_number (xs : list F32.float) :
  Forall (fun x => F32.is_finite x = true) xs -> is_number (mean_of xs).
Proof.
  intros H. unfold mean_of.
  change (F32.of_int WashSense.CALIBRATION_SAMPLES)
    with (S754_finite false 13107200 (-18)).
  apply div_by_finite_number, fold_add_number; [exact H | reflexivity].
Qed.

Lemma finite_components (xs : list Sample) :
  Forall finite_sample xs ->
  Forall (fun x => F32.is_finite x = true) (map ax xs) /\
  Forall (fun x => F32.is_finite x = true) (map ay xs) /\
  Forall (fun x => F32.is_finite x = true) (map az xs).
Proof.
  induction 1 as [|s xs (Hx & Hy & Hz) _ (IHx & IHy & IHz)];
    repeat split; constructor; assumption.
Qed.

Lemma means_numeric (script : list (option Sample)) :
  finite_script script ->
  numeric_sample
    (mkSample (mean_of (map ax (accepted script)))
              (mean_of (map ay (accepted script)))
              (minus_gravity (mean_of (map az (accepted script))))).
Proof.
  intros H. destruct (finite_components _ H) as (Hx & Hy & Hz).
  repeat split; cbn [ax ay az];
    [| | apply minus_gravity_number]; now apply mean_number.
Qed.

Lemma magnitude_nonneg (c : Sample) :
  numeric_sample c -> nonneg (WashSense.magnitude c) = true.
Proof.
  intros (Hx & Hy & Hz). unfold WashSense.magnitude.
  apply sqrt_of_nonneg, add_nonneg; [apply add_nonneg|];
    now apply mul_self_nonneg.
Qed.

Lemma corrected_numeric (g : WashSense.Globals) (s : Sample) :
  finite_sample s -> numeric_sample (WashSense.offsets g) ->
  numeric_sample (WashSense.corrected g s).
Proof.
  destruct g as [ox oy oz pm ca]. intros (Hx & Hy & Hz) (Ox & Oy & Oz).
  repeat split; cbn; now apply sub_number.
Qed.

Section Numbers.
Import WashSense.

(** What one pass publishes: nothing, or the corrected sample and its
    magnitude. *)
Lemma loop_published (i : LoopInput) (g : Globals) :
  published (snd (loop i g)) = [] \/
  exists s,
    accel i = Some s /\
    published (snd (loop i g)) =
      [(vibrationX, ax (corrected g s)); (vibrationY, ay (corrected g s));
       (vibrationZ, az (corrected g s));
       (vibrationMag, magnitude (corrected g s))].
Proof.
  loop_cases i g;
    solve [left; reflexivity | right; eexists; split; reflexivity].
Qed.

Lemma batch_sound (c : Sample) :
  numeric_sample c ->
  Forall sound_value
    [(vibrationX, ax c); (vibrationY, ay c); (vibrationZ, az c);
     (vibrationMag, magnitude c)].
Proof.
  intros Hc. pose proof (magnitude_nonneg c Hc) as Hm.
  destruct Hc as (Hx & Hy & Hz).
  repeat constructor; cbn [fst snd]; try assumption; try discriminate.
  - now apply nonneg_is_number.
  - intros _. now apply nonneg_leb_zero.
Qed.

Lemma loop_sound (i : LoopInput) (g : Globals) :
  numeric_sample (offsets g) ->
  (forall s, accel i = Some s -> finite_sample s) ->
  Forall sound_value (published (snd (loop i g))).
Proof.
  intros Ho Hs.
  destruct (loop_published i g) as [-> | (s & Ha & ->)]; [constructor|].
  apply batch_sound, corrected_numeric; [now apply Hs | exact Ho].
Qed.

Lemma loops_sound (inputs : list LoopInput) :
  finite_inputs inputs ->
  forall g : Globals,
    numeric_sample (offsets g) ->
    Forall sound_value (published (snd (loops g inputs))).
Proof.
  induction 1 as [|i inputs Hi _ IH]; intros g Ho; [constructor|].
  rewrite loops_cons. cbn [snd]. rewrite published_app.
  apply Forall_app. split; [now apply loop_sound|].
  apply IH. now rewrite (proj1 (loop_keeps_offsets i g)).
Qed.

End Numbers.

Section Part000Numbers.
Import Part000.

Lemma part000_magnitude_nonneg (c : Sample) :
  numeric_sample c -> nonneg (magnitude c) = true.
Proof. exact (magnitude_nonneg c). Qed.

Lemma part000_corrected_numeric (s : Sample) :
  finite_sample s -> numeric_sample (corrected s).
Proof.
  intros (Hx & Hy & Hz). repeat split; cbn [corrected ax ay az].
  - now apply sub_number.
  - now apply finite_is_number.
  - now apply finite_is_number.
Qed.

Lemma part000_step_published (c : Control) (i : LoopInput) :
  published (snd (step c i)) = [] \/
  exists s,
    accel i = Some s /\
    published (snd (step c i)) =
      [(vibrationX, ax (corrected s)); (vibrationY, ay (corrected s));
       (vibrationZ, az (corrected s));
       (vibrationMag, magnitude (corrected s))].
Proof.
  destruct c, i as [[a|] t [s|]];
    solve [left; reflexivity | right; eexists; split; reflexivity].
Qed.

Lemma part000_step_sound (c : Control) (i : LoopInput) :
  (forall s, accel i = Some s -> finite_sample s) ->
  Forall sound_value (published (snd (step c i))).
Proof.
  intros Hs.
  destruct (part000_step_published c i) as [-> | (s & Ha & ->)]; [constructor|].
  apply (batch_sound (corrected s)), part000_corrected_numeric. now apply Hs.
Qed.

Lemma part000_run_sound (inputs : list LoopInput) :
  finite_inputs inputs ->
  forall c : Control,
    Forall sound_value (published (snd (run (Running c) inputs))).
Proof.
  induction 1 as [|i inputs Hi _ IH]; intros c; [constructor|].
  rewrite part000_run_cons, published_app.
  apply Forall_app. split; [now apply part000_step_sound | apply IH].
Qed.

End Part000Numbers.

Lemma resting_script_is_finite : finite_script resting_script.
Proof. unfold finite_script. vm_compute. repeat constructor. Qed.

Lemma resting_passes_are_finite : finite_inputs resting_passes.
Proof.
  unfold finite_inputs, resting_passes. cbn [map].
  repeat constructor; cbn [accel] in *;
    match goal with H : Some _ = Some _ |- _ => injection H as <- end;
    reflexivity.
Qed.

(** X10: the magnitude does not depend on the direction of the vibration:
    flipping the sign of any component of the corrected reading leaves
    [sqrt(x*x + y*y + z*z)] unchanged, bit for bit, in both sketches. *)
Theorem magnitude_ignores_signs (sx sy sz : bool) (c : Sample) :
  WashSense.magnitude (flipped sx sy sz c) = WashSense.magnitude c /\
  Part000.magnitude (flipped sx sy sz c) = Part000.magnitude c.
Proof.
  unfold WashSense.magnitude, Part000.magnitude, flipped. cbn [ax ay az].
  now rewrite !mul_cond_opp.
Qed.

(** X11: a device whose sensor and radio start, and whose sensor only ever
    delivers finite numbers, reaches the loop and never sends NaN: every
    value written to a characteristic, at bootstrap and over any passes
    through [loop()], is a number, and every magnitude is at least zero. *)
Theorem never_publishes_nan
    (b : WashSense.BootInput) (inputs : list LoopInput) :
  WashSense.imu_begin b = true ->
  WashSense.ble_begin b = true ->
  enough_samples b ->
  finite_script (WashSense.calib_script b) ->
  finite_inputs inputs ->
  exists (g : WashSense.Globals) (tr : Trace),
    WashSense.power_on b = (WashSense.Streaming g, tr) /\
    Forall sound_value (published (tr ++ snd (WashSense.loops g inputs))).
Proof.
  intros Himu Hble Hn Hscript Hinputs.
  destruct (setup_after_calibration b WashSense.initial_globals Himu Hn)
    as (gc & trc & _ & Hoff & _ & _ & Hpub & _ & _ & Hsetup).
  rewrite Hble in Hsetup.
  exists gc. eexists. split.
  - unfold WashSense.power_on. rewrite Hsetup. reflexivity.
  - rewrite !published_app, (published_unpublished trc Hpub).
    repeat (apply Forall_app; split).
    + constructor.
    + constructor.
    + constructor.
    + constructor.
    + repeat constructor; discriminate.
    + apply loops_sound; [exact Hinputs|].
      rewrite Hoff. now apply means_numeric.
Qed.

Lemma never_publishes_nan_witness :
  exists (g : WashSense.Globals) (tr : Trace),
    WashSense.power_on resting_boot = (WashSense.Streaming g, tr) /\
    Forall sound_value
      (published (tr ++ snd (WashSense.loops g resting_passes))).
Proof.
  exact (never_publishes_nan resting_boot resting_passes eq_refl eq_refl
           resting_boot_has_enough_samples resting_script_is_finite
           resting_passes_are_finite).
Defined.

(** X12: calibration on finite samples cannot poison the offsets: when the
    sensor delivers enough samples and those accepted are finite,
    [calibrateAccelerometer] returns and none of the three offsets is NaN. *)
Theorem calibration_offsets_are_numbers
    (script : list (option Sample)) (g : WashSense.Globals) :
  (Z.to_nat WashSense.CALIBRATION_SAMPLES <= length (available script))%nat ->
  finite_script script ->
  exists (g' : WashSense.Globals) (tr : Trace),
    WashSense.calibrateAccelerometer script g = Returned g' tr /\
    numeric_sample (WashSense.offsets g').
Proof.
  intros Hn Hscript.
  destruct (calibrate_returns script g Hn) as (tr & Heq & _ & _).
  eexists. eexists. split; [exact Heq|].
  destruct g as [ox oy oz pm ca]. now apply means_numeric.
Qed.

Lemma calibration_offsets_are_numbers_witness :
  exists (g' : WashSense.Globals) (tr : Trace),
    WashSense.calibrateAccelerometer resting_script WashSense.initial_globals
    = Returned g' tr /\
    numeric_sample (WashSense.offsets g').
Proof.
  exact (calibration_offsets_are_numbers resting_script
           WashSense.initial_globals resting_boot_has_enough_samples
           resting_script_is_finite).
Defined.

(** X13: the second sketch never sends NaN either: with a sensor that
    delivers finite numbers, every value it writes to a characteristic over
    any run is a number, and every magnitude is at least zero. *)
Theorem part000_never_publishes_nan
    (c : Part000.Control) (inputs : list LoopInput) :
  finite_inputs inputs ->
  Forall sound_value
    (published (snd (Part000.run (Part000.Running c) inputs))).
Proof. intros H. now apply part000_run_sound. Qed.

Lemma part000_never_publishes_nan_witness :
  Forall sound_value
    (published
       (snd (Part000.run (Part000.Running Part000.InWhile) resting_passes))).
Proof.
  exact (part000_never_publishes_nan Part000.InWhile resting_passes
           resting_passes_are_finite).
Defined.
